(** * Mythmaker: the pipeline of [app.py], embedded and verified

    The development follows the source file top-down.

    - [PyText]: the string methods the pipeline calls ([str.replace],
      [str.strip]) on UTF-8 text.
    - [PyValue]: the objects [json.loads] builds, with truthiness and the
      comparison of a float with 8.
    - [Json]: the decoder behind [json.loads].
    - [Runtime]: exceptions, the state-and-exception monad in which the
      gateway and the driver run, and loops with [break].
    - [PyOps]: [json.loads], [dict.get] and [>= 8] as operations that may
      raise.
    - [GenAI]: requests and responses of the generative service.
    - then the role blueprints, [execute_agent] and [run_pipeline], names
      for the values a run computes, and the properties.

    What is outside the model: the user interface (part 4 of the source),
    the credential, time, and the threads of the gathering phase, whose two
    calls are made one after the other here ([asyncio.gather] returns the
    results in task order whichever call ends first).  The service is a
    parameter: any function from the rank of a call and its request to a
    response or an exception. *)

From Stdlib Require Import ZArith NArith List String Ascii Bool Lia.
From Stdlib Require Import DecimalString.
From Stdlib Require QArith.
Import ListNotations.
Open Scope string_scope.

(* ------------------------------------------------------------------ *)
(** ** Text: Python [str] as UTF-8 bytes                                *)
(* ------------------------------------------------------------------ *)

Module PyText.

(** One-character string of byte [n]. *)
Definition chr (n : nat) : string := String (ascii_of_nat n) EmptyString.

(** The line feed written [\n] in the source. *)
Definition NL : ascii := ascii_of_nat 10.
Definition LF : string := String NL EmptyString.

(** Byte value of a character. *)
Definition ord (c : ascii) : N := N_of_ascii c.

(** [s.replace(old, new)] for a non-empty [old]: occurrences are found left
    to right and do not overlap.  [skip] counts the bytes of a matched
    occurrence that are still to be dropped. *)
Fixpoint replace_from (old new : string) (skip : nat) (s : string) : string :=
  match s with
  | EmptyString => EmptyString
  | String c r =>
      match skip with
      | S k => replace_from old new k r
      | O =>
          if prefix old s
          then new ++ replace_from old new (pred (String.length old)) r
          else String c (replace_from old new 0 r)
      end
  end.

Definition replace (s old new : string) : string := replace_from old new 0 s.

(** Whitespace in the sense of [str.isspace], which is what [str.strip]
    removes: U+0009..U+000D, U+001C..U+0020, U+0085, U+00A0, U+1680,
    U+2000..U+200A, U+2028, U+2029, U+202F, U+205F, U+3000. *)
Definition space1 (a : N) : bool :=
  ((9 <=? a) && (a <=? 13) || (28 <=? a) && (a <=? 32))%N.

Definition space2 (a b : N) : bool :=
  ((a =? 194) && ((b =? 133) || (b =? 160)))%N.

Definition space3 (a b c : N) : bool :=
  ((a =? 225) && (b =? 154) && (c =? 128)
   || (a =? 226) && (b =? 128)
      && ((128 <=? c) && (c <=? 138) || (c =? 168) || (c =? 169) || (c =? 175))
   || (a =? 226) && (b =? 129) && (c =? 159)
   || (a =? 227) && (b =? 128) && (c =? 128))%N.

(** Number of bytes of the whitespace character at the head of [s], 0 when
    [s] does not start with one. *)
Definition space_width (s : string) : nat :=
  match s with
  | String a r =>
      if space1 (ord a) then 1
      else match r with
           | String b r' =>
               if space2 (ord a) (ord b) then 2
               else match r' with
                    | String c _ => if space3 (ord a) (ord b) (ord c) then 3 else 0
                    | EmptyString => 0
                    end
           | EmptyString => 0
           end
  | EmptyString => 0
  end.

(** The same on a reversed string: the bytes of the last character come in
    reverse order. *)
Definition space_width_rev (s : string) : nat :=
  match s with
  | String a r =>
      if space1 (ord a) then 1
      else match r with
           | String b r' =>
               if space2 (ord b) (ord a) then 2
               else match r' with
                    | String c _ => if space3 (ord c) (ord b) (ord a) then 3 else 0
                    | EmptyString => 0
                    end
           | EmptyString => 0
           end
  | EmptyString => 0
  end.

(** Drop leading whitespace, as measured by [width]. *)
Fixpoint drop_spaces (width : string -> nat) (skip : nat) (s : string) : string :=
  match s with
  | EmptyString => EmptyString
  | String _ r =>
      match skip with
      | S k => drop_spaces width k r
      | O =>
          match width s with
          | O => s
          | S k => drop_spaces width k r
          end
      end
  end.

Definition reverse (s : string) : string :=
  string_of_list_ascii (rev (list_ascii_of_string s)).

Definition lstrip (s : string) : string := drop_spaces space_width 0 s.

Definition rstrip (s : string) : string :=
  reverse (drop_spaces space_width_rev 0 (reverse s)).

(** [s.strip()]. *)
Definition strip (s : string) : string := lstrip (rstrip s).

(** [str(n)] for an [int]. *)
Definition str_of_int (z : Z) : string := NilZero.string_of_int (Z.to_int z).

(** Number of positions of [hay] at which [needle] occurs. *)
Fixpoint occurrences (needle hay : string) : nat :=
  match hay with
  | EmptyString => if prefix needle EmptyString then 1 else 0
  | String _ r =>
      (if prefix needle hay then 1 else 0) + occurrences needle r
  end.

(** [hay.split(sep)] for a one-byte separator. *)
Fixpoint split_on (sep : ascii) (hay : string) : list string :=
  match hay with
  | EmptyString => [EmptyString]
  | String c r =>
      if Ascii.eqb c sep then EmptyString :: split_on sep r
      else match split_on sep r with
           | l :: ls => String c l :: ls
           | [] => [String c EmptyString]
           end
  end.

(** [sep not in s]. *)
Fixpoint free_of (sep : ascii) (s : string) : bool :=
  match s with
  | EmptyString => true
  | String c r => negb (Ascii.eqb c sep) && free_of sep r
  end.

(** A byte that continues a multi-byte character. *)
Definition continuation (c : ascii) : bool :=
  ((128 <=? ord c) && (ord c <? 192))%N.

(** [len(s)]: the number of characters, that is of bytes that start one. *)
Fixpoint py_len (s : string) : nat :=
  match s with
  | EmptyString => 0
  | String c r => (if continuation c then 0 else 1) + py_len r
  end.

(** [s[:n]]: the first [n] characters, each with all its bytes. *)
Fixpoint slice_to (n : nat) (s : string) : string :=
  match s with
  | EmptyString => EmptyString
  | String c r =>
      if continuation c then String c (slice_to n r)
      else match n with
           | O => EmptyString
           | S k => String c (slice_to k r)
           end
  end.

(** An ASCII character that is not whitespace. *)
Definition plain (c : ascii) : bool :=
  ((ord c <? 128)%N && negb (space1 (ord c)))%bool.

End PyText.

(* ------------------------------------------------------------------ *)
(** ** Values: what [json.loads] returns                                *)
(* ------------------------------------------------------------------ *)

Module PyValue.

(** A Python [float] read from a decimal literal: the binary64 number
    nearest to [(-1)^neg * m * 10^e] (ties to even), or one of the three
    special values the decoder accepts. *)
Inductive PyFloat : Type :=
| FNaN
| FInf (neg : bool)
| FDec (neg : bool) (m : N) (e : Z).

#[local] Unset Elimination Schemes.
Inductive PyVal : Type :=
| PyNone
| PyBool (b : bool)
| PyInt (z : Z)
| PyFlt (f : PyFloat)
| PyStr (s : string)
| PyList (l : list PyVal)
| PyDict (d : list (string * PyVal)).
#[local] Set Elimination Schemes.

(** A [dict] with [str] keys keeps insertion order; assigning an existing
    key replaces its value in place. *)
Fixpoint dict_set (k : string) (v : PyVal) (d : list (string * PyVal))
  : list (string * PyVal) :=
  match d with
  | [] => [(k, v)]
  | (k', v') :: d' =>
      if String.eqb k k' then (k, v) :: d' else (k', v') :: dict_set k v d'
  end.

Fixpoint dict_lookup (k : string) (d : list (string * PyVal)) : option PyVal :=
  match d with
  | [] => None
  | (k', v) :: d' => if String.eqb k k' then Some v else dict_lookup k d'
  end.

(** [type(v).__name__]. *)
Definition type_name (v : PyVal) : string :=
  match v with
  | PyNone => "NoneType"
  | PyBool _ => "bool"
  | PyInt _ => "int"
  | PyFlt _ => "float"
  | PyStr _ => "str"
  | PyList _ => "list"
  | PyDict _ => "dict"
  end.

(** [f >= 8] on a float.  8 is a binary64 number whose predecessor is
    [8 - 2^-50]; a decimal rounds to 8 or more exactly when it is at least
    the midpoint [8 - 2^-51] (the tie goes to 8, whose significand is even).
    NaN compares false. *)
Definition float_ge_8 (f : PyFloat) : bool :=
  match f with
  | FNaN => false
  | FInf neg => negb neg
  | FDec true _ _ => false
  | FDec false m e =>
      if (0 <=? e)%Z
      then (2 ^ 54 - 1 <=? Z.of_N m * 10 ^ e * 2 ^ 51)%Z
      else ((2 ^ 54 - 1) * 10 ^ (- e) <=? Z.of_N m * 2 ^ 51)%Z
  end.

(** [bool(f)] on a float: false exactly when the decimal rounds to zero,
    that is when its magnitude is at most [2^-1075], half the smallest
    subnormal. *)
Definition float_truthy (f : PyFloat) : bool :=
  match f with
  | FNaN => true
  | FInf _ => true
  | FDec _ m e =>
      if (0 <=? e)%Z
      then (0 <? Z.of_N m)%Z
      else (10 ^ (- e) <? Z.of_N m * 2 ^ 1075)%Z
  end.

(** [bool(v)], the test of [if feedback:]. *)
Definition truthy (v : PyVal) : bool :=
  match v with
  | PyNone => false
  | PyBool b => b
  | PyInt z => negb (z =? 0)%Z
  | PyFlt f => float_truthy f
  | PyStr s => negb (String.eqb s EmptyString)
  | PyList l => match l with [] => false | _ => true end
  | PyDict d => match d with [] => false | _ => true end
  end.

End PyValue.

(* ------------------------------------------------------------------ *)
(** ** The decoder behind [json.loads]                                  *)
(* ------------------------------------------------------------------ *)

(** The grammar is the one of CPython's [json] scanner with its default
    settings: strict strings, the constants [NaN], [Infinity] and
    [-Infinity], duplicate keys resolved by the last one.  The limits an
    interpreter puts on top of the grammar (recursion depth, the cap on the
    digits of an [int]) are not modelled. *)

Module Json.
Import PyText PyValue.

(** Outcome of scanning a prefix of the text: a value and the unread rest,
    a decoding error, or recursion budget used up. *)
Inductive Scan (A : Type) : Type :=
| Ok (a : A) (rest : string)
| Invalid
| Exhausted.
Arguments Ok {A} a rest.
Arguments Invalid {A}.
Arguments Exhausted {A}.

(** The decoder's whitespace: space, tab, line feed, carriage return. *)
Definition json_space (c : ascii) : bool :=
  let n := ord c in ((n =? 32) || (n =? 9) || (n =? 10) || (n =? 13))%N.

Fixpoint skip_ws (s : string) : string :=
  match s with
  | String c r => if json_space c then skip_ws r else s
  | EmptyString => s
  end.

Definition is_digit (c : ascii) : bool :=
  let n := ord c in ((48 <=? n) && (n <=? 57))%N.

Definition hex_digit (c : ascii) : option N :=
  let n := ord c in
  if ((48 <=? n) && (n <=? 57))%N then Some (n - 48)%N
  else if ((65 <=? n) && (n <=? 70))%N then Some (n - 55)%N
  else if ((97 <=? n) && (n <=? 102))%N then Some (n - 87)%N
  else None.

Definition hex4 (a b c d : ascii) : option N :=
  match hex_digit a, hex_digit b, hex_digit c, hex_digit d with
  | Some x, Some y, Some z, Some w => Some (((x * 16 + y) * 16 + z) * 16 + w)%N
  | _, _, _, _ => None
  end.

Definition byte (n : N) : ascii := ascii_of_N n.

(** UTF-8 bytes of a code point; a lone surrogate takes the three-byte
    form, so the code points of a Python [str] are kept apart. *)
Definition utf8 (cp : N) : string :=
  if (cp <? 128)%N then String (byte cp) EmptyString
  else if (cp <? 2048)%N then
    String (byte (192 + cp / 64)) (String (byte (128 + cp mod 64)) EmptyString)
  else if (cp <? 65536)%N then
    String (byte (224 + cp / 4096))
      (String (byte (128 + (cp / 64) mod 64))
         (String (byte (128 + cp mod 64)) EmptyString))
  else
    String (byte (240 + cp / 262144))
      (String (byte (128 + (cp / 4096) mod 64))
         (String (byte (128 + (cp / 64) mod 64))
            (String (byte (128 + cp mod 64)) EmptyString))).

Definition high_surrogate (cp : N) : bool := ((55296 <=? cp) && (cp <=? 56319))%N.
Definition low_surrogate (cp : N) : bool := ((56320 <=? cp) && (cp <=? 57343))%N.
Definition join_surrogates (hi lo : N) : N :=
  (65536 + (hi - 55296) * 1024 + (lo - 56320))%N.

(** The one-letter escapes: quote, backslash, slash, b, f, n, r, t. *)
Definition simple_escape (c : ascii) : option ascii :=
  let n := ord c in
  if (n =? 34)%N then Some (byte 34)
  else if (n =? 92)%N then Some (byte 92)
  else if (n =? 47)%N then Some (byte 47)
  else if (n =? 98)%N then Some (byte 8)
  else if (n =? 102)%N then Some (byte 12)
  else if (n =? 110)%N then Some (byte 10)
  else if (n =? 114)%N then Some (byte 13)
  else if (n =? 116)%N then Some (byte 9)
  else None.

Definition emit (pre : string) (k : option (string * string))
  : option (string * string) :=
  match k with
  | Some (body, rest) => Some (pre ++ body, rest)
  | None => None
  end.

(** The body of a string literal, after its opening quote (strict mode:
    a raw control character is an error). *)
Fixpoint scanstring (s : string) : option (string * string) :=
  match s with
  | EmptyString => None
  | String c r =>
      let n := ord c in
      if (n =? 34)%N then Some (EmptyString, r)
      else if (n <? 32)%N then None
      else if (n =? 92)%N then
        match r with
        | EmptyString => None
        | String e r1 =>
            match simple_escape e with
            | Some ch => emit (String ch EmptyString) (scanstring r1)
            | None =>
                if (ord e =? 117)%N then
                  match r1 with
                  | String h1 (String h2 (String h3 (String h4 r2))) =>
                      match hex4 h1 h2 h3 h4 with
                      | None => None
                      | Some cp =>
                          if high_surrogate cp then
                            match r2 with
                            | String b (String u
                                (String l1 (String l2 (String l3 (String l4 r3))))) =>
                                if ((ord b =? 92) && (ord u =? 117))%N then
                                  match hex4 l1 l2 l3 l4 with
                                  | None => None
                                  | Some lo =>
                                      if low_surrogate lo
                                      then emit (utf8 (join_surrogates cp lo)) (scanstring r3)
                                      else emit (utf8 cp) (scanstring r2)
                                  end
                                else emit (utf8 cp) (scanstring r2)
                            | _ => emit (utf8 cp) (scanstring r2)
                            end
                          else emit (utf8 cp) (scanstring r2)
                      end
                  | _ => None
                  end
                else None
            end
        end
      else emit (String c EmptyString) (scanstring r)
  end.

(** Longest run of digits at the head of [s], and what follows. *)
Fixpoint take_digits (s : string) : string * string :=
  match s with
  | String c r =>
      if is_digit c
      then let (ds, rest) := take_digits r in (String c ds, rest)
      else (EmptyString, s)
  | EmptyString => (EmptyString, EmptyString)
  end.

Fixpoint digits_value (acc : N) (ds : string) : N :=
  match ds with
  | String c r => digits_value (acc * 10 + (ord c - 48))%N r
  | EmptyString => acc
  end.

(** Integer part of a number: [0] or a non-zero digit and more digits. *)
Definition scan_int_part (s : string) : option (string * string) :=
  match s with
  | String c r =>
      if (ord c =? 48)%N then Some (String c EmptyString, r)
      else if is_digit c then let (ds, rest) := take_digits r in Some (String c ds, rest)
      else None
  | EmptyString => None
  end.

(** Optional fraction: a dot and at least one digit. *)
Definition scan_frac (s : string) : option string * string :=
  match s with
  | String c (String d r) =>
      if ((ord c =? 46)%N && is_digit d)%bool
      then let (ds, rest) := take_digits (String d r) in (Some ds, rest)
      else (None, s)
  | _ => (None, s)
  end.

(** Optional exponent: [e] or [E], an optional sign, at least one digit. *)
Definition scan_exp (s : string) : option Z * string :=
  match s with
  | String c r =>
      if ((ord c =? 101) || (ord c =? 69))%N then
        match r with
        | String g r' =>
            if ((ord g =? 43) || (ord g =? 45))%N then
              match r' with
              | String d _ =>
                  if is_digit d then
                    let (ds, rest) := take_digits r' in
                    let v := Z.of_N (digits_value 0 ds) in
                    (Some (if (ord g =? 45)%N then (- v)%Z else v), rest)
                  else (None, s)
              | EmptyString => (None, s)
              end
            else if is_digit g then
              let (ds, rest) := take_digits r in
              (Some (Z.of_N (digits_value 0 ds)), rest)
            else (None, s)
        | EmptyString => (None, s)
        end
      else (None, s)
  | EmptyString => (None, s)
  end.

(** A number: an [int] when it has neither fraction nor exponent, a
    [float] otherwise. *)
Definition scan_number (s : string) : option (PyVal * string) :=
  let (neg, s1) :=
    match s with
    | String c r => if (ord c =? 45)%N then (true, r) else (false, s)
    | EmptyString => (false, s)
    end in
  match scan_int_part s1 with
  | None => None
  | Some (ip, s2) =>
      let (frac, s3) := scan_frac s2 in
      let (ex, s4) := scan_exp s3 in
      match frac, ex with
      | None, None =>
          let v := Z.of_N (digits_value 0 ip) in
          Some (PyInt (if neg then (- v)%Z else v), s4)
      | _, _ =>
          let fd := match frac with Some ds => ds | None => EmptyString end in
          let e := match ex with Some z => z | None => 0%Z end in
          Some (PyFlt (FDec neg (digits_value 0 (ip ++ fd))
                         (e - Z.of_nat (String.length fd))), s4)
      end
  end.

(** If [s] starts with [word], what follows it. *)
Fixpoint after (word s : string) : option string :=
  match word, s with
  | EmptyString, _ => Some s
  | String a w, String b r => if Ascii.eqb a b then after w r else None
  | String _ _, EmptyString => None
  end.

(** The constants and numbers, tried in the scanner's order. *)
Definition scan_atom (s : string) : Scan PyVal :=
  match after "null" s with
  | Some r => Ok PyNone r
  | None =>
  match after "true" s with
  | Some r => Ok (PyBool true) r
  | None =>
  match after "false" s with
  | Some r => Ok (PyBool false) r
  | None =>
  match scan_number s with
  | Some (v, r) => Ok v r
  | None =>
  match after "NaN" s with
  | Some r => Ok (PyFlt FNaN) r
  | None =>
  match after "Infinity" s with
  | Some r => Ok (PyFlt (FInf false)) r
  | None =>
  match after "-Infinity" s with
  | Some r => Ok (PyFlt (FInf true)) r
  | None => Invalid
  end end end end end end end.

(** One value at the head of [s]; [json_array] and [json_object] read the
    items of a non-empty array or object after its opening bracket and
    whitespace. *)
Fixpoint scan_once (fuel : nat) (s : string) : Scan PyVal :=
  match fuel with
  | O => Exhausted
  | S f =>
      match s with
      | EmptyString => Invalid
      | String c r =>
          let n := ord c in
          if (n =? 34)%N then
            match scanstring r with
            | Some (str, r') => Ok (PyStr str) r'
            | None => Invalid
            end
          else if (n =? 123)%N then
            match skip_ws r with
            | String c' r' =>
                if (ord c' =? 125)%N then Ok (PyDict []) r'
                else json_object f (String c' r') []
            | EmptyString => Invalid
            end
          else if (n =? 91)%N then
            match skip_ws r with
            | String c' r' =>
                if (ord c' =? 93)%N then Ok (PyList []) r'
                else json_array f (String c' r') []
            | EmptyString => Invalid
            end
          else scan_atom s
      end
  end

with json_array (fuel : nat) (s : string) (acc : list PyVal) : Scan PyVal :=
  match fuel with
  | O => Exhausted
  | S f =>
      match scan_once f s with
      | Ok v r =>
          match skip_ws r with
          | String c r' =>
              if (ord c =? 93)%N then Ok (PyList (rev (v :: acc))) r'
              else if (ord c =? 44)%N then json_array f (skip_ws r') (v :: acc)
              else Invalid
          | EmptyString => Invalid
          end
      | Invalid => Invalid
      | Exhausted => Exhausted
      end
  end

with json_object (fuel : nat) (s : string) (acc : list (string * PyVal))
  : Scan PyVal :=
  match fuel with
  | O => Exhausted
  | S f =>
      match s with
      | String q r =>
          if (ord q =? 34)%N then
            match scanstring r with
            | Some (key, r1) =>
                match skip_ws r1 with
                | String c r2 =>
                    if (ord c =? 58)%N then
                      match scan_once f (skip_ws r2) with
                      | Ok v r3 =>
                          let acc' := dict_set key v acc in
                          match skip_ws r3 with
                          | String c' r4 =>
                              if (ord c' =? 125)%N then Ok (PyDict acc') r4
                              else if (ord c' =? 44)%N
                              then json_object f (skip_ws r4) acc'
                              else Invalid
                          | EmptyString => Invalid
                          end
                      | Invalid => Invalid
                      | Exhausted => Exhausted
                      end
                    else Invalid
                | EmptyString => Invalid
                end
            | None => Invalid
            end
          else Invalid
      | EmptyString => Invalid
      end
  end.

(** Recursion budget that no text can use up (see [decode_total]). *)
Definition budget (s : string) : nat := 2 * String.length s + 1.

(** [json.loads(s)] on a [str]: whitespace, one value, whitespace, end of
    text. *)
Definition decode (s : string) : Scan PyVal :=
  let s0 := skip_ws s in
  match scan_once (budget s0) s0 with
  | Ok v r =>
      match skip_ws r with
      | EmptyString => Ok v EmptyString
      | String _ _ => Invalid
      end
  | Invalid => Invalid
  | Exhausted => Exhausted
  end.

(** [None] stands for the [JSONDecodeError]. *)
Definition loads (s : string) : option PyVal :=
  match decode s with
  | Ok v _ => Some v
  | _ => None
  end.

End Json.

(* ------------------------------------------------------------------ *)
(** ** Exceptions, and computations that have state and may raise       *)
(* ------------------------------------------------------------------ *)

Module Runtime.

(** An exception object: its class and [str(e)]. *)
Record PyExn : Type := { exn_class : string; exn_str : string }.

Inductive Outcome (A : Type) : Type :=
| Returned (a : A)
| Raised (e : PyExn).
Arguments Returned {A} a.
Arguments Raised {A} e.

(** A computation over a state [St]; what was written to the state before
    a [raise] stays written. *)
Definition M (St A : Type) : Type := St -> Outcome A * St.

Definition ret {St A} (a : A) : M St A := fun st => (Returned a, st).

Definition bind {St A B} (m : M St A) (k : A -> M St B) : M St B :=
  fun st =>
    match m st with
    | (Returned a, st') => k a st'
    | (Raised e, st') => (Raised e, st')
    end.

Definition lift {St A} (o : Outcome A) : M St A := fun st => (o, st).

Definition modify {St} (f : St -> St) : M St unit := fun st => (Returned tt, f st).

(** [try: body  except Exception as e: handler(e)]. *)
Definition try_except {St A} (body : M St A) (handler : PyExn -> M St A) : M St A :=
  fun st =>
    match body st with
    | (Returned a, st') => (Returned a, st')
    | (Raised e, st') => handler e st'
    end.

Declare Scope py_scope.
Delimit Scope py_scope with py.
Notation "x <- m ;; k" := (bind m (fun x => k))
  (at level 61, m at next level, right associativity) : py_scope.
Notation "m ;; k" := (bind m (fun _ => k))
  (at level 61, right associativity) : py_scope.

(** How a loop body ends: by falling through or by [break]. *)
Inductive Flow (S : Type) : Type :=
| Continue (s : S)
| Break (s : S).
Arguments Continue {S} s.
Arguments Break {S} s.

(** [for i in range(start, start + n): body], with [break]. *)
Fixpoint for_range {St S} (n : nat) (i : nat) (body : nat -> S -> M St (Flow S))
  (s : S) : M St S :=
  match n with
  | O => ret s
  | Datatypes.S n' =>
      bind (body i s) (fun fl =>
        match fl with
        | Break s' => ret s'
        | Continue s' => for_range n' (Datatypes.S i) body s'
        end)
  end.

End Runtime.

(* ------------------------------------------------------------------ *)
(** ** Operations of the refine loop on decoded values                  *)
(* ------------------------------------------------------------------ *)

Module PyOps.
Import PyText PyValue Runtime.

Definition AttributeError (v : PyVal) (attr : string) : PyExn :=
  {| exn_class := "AttributeError";
     exn_str := "'" ++ type_name v ++ "' object has no attribute '" ++ attr ++ "'" |}.

Definition TypeError_ge (v : PyVal) : PyExn :=
  {| exn_class := "TypeError";
     exn_str := "'>=' not supported between instances of '"
                ++ type_name v ++ "' and 'int'" |}.

(** The handler of the loop discards the exception, so its message is
    left empty. *)
Definition JSONDecodeError : PyExn :=
  {| exn_class := "JSONDecodeError"; exn_str := EmptyString |}.

(** [json.loads(s)]. *)
Definition json_loads (s : string) : Outcome PyVal :=
  match Json.loads s with
  | Some v => Returned v
  | None => Raised JSONDecodeError
  end.

(** [data.get(key, default)]: only a [dict] has the method. *)
Definition get (data : PyVal) (key : string) (default : PyVal) : Outcome PyVal :=
  match data with
  | PyDict d =>
      Returned (match dict_lookup key d with Some v => v | None => default end)
  | _ => Raised (AttributeError data "get")
  end.

(** [v >= 8]: numbers compare ([bool] is an [int]), anything else raises. *)
Definition ge_8 (v : PyVal) : Outcome bool :=
  match v with
  | PyBool b => Returned ((if b then 1 else 0) >=? 8)%Z
  | PyInt z => Returned (z >=? 8)%Z
  | PyFlt f => Returned (float_ge_8 f)
  | _ => Raised (TypeError_ge v)
  end.

End PyOps.

(* ------------------------------------------------------------------ *)
(** ** The generative service, as the gateway sees it                   *)
(* ------------------------------------------------------------------ *)

Module GenAI.
Import Runtime.

Inductive Tool : Type := GoogleSearch.

Record AutomaticFunctionCallingConfig : Type := { disable : bool }.

Record GenerateContentConfig : Type := {
  system_instruction : string;
  temperature : QArith_base.Q;
  tools : list Tool;
  automatic_function_calling : option AutomaticFunctionCallingConfig
}.

(** An item of [contents]: an inline image or the prompt text. *)
Inductive ContentItem : Type :=
| PartFromBytes (data : string) (mime_type : string)
| Prompt (text : string).

Record Request : Type := {
  model : string;
  contents : list ContentItem;
  config : GenerateContentConfig
}.

(** The response, with the fields the gateway reads; each is optional in
    the client library. *)
Record Part : Type := { text : option string }.
Record Content : Type := { parts : option (list Part) }.
Record Candidate : Type := { content : option Content }.
Record GenerateContentResponse : Type := { candidates : option (list Candidate) }.

(** [client.models.generate_content]: what the service answers to its
    [n]-th call (counted from 0), given the request.  A failure is an
    instance of [Exception]. *)
Definition Client : Type := nat -> Request -> Outcome GenerateContentResponse.

End GenAI.

(* ------------------------------------------------------------------ *)
(** ** 2. The agents (blueprints)                                       *)
(* ------------------------------------------------------------------ *)

Import PyText PyValue Runtime PyOps GenAI.
Local Open Scope py_scope.

Record Gemini : Type := { model_name : string }.

Record LlmAgent : Type := {
  agent_model : Gemini;
  name : string;
  instruction : string
}.

Definition gemini_2_5_pro : Gemini := {| model_name := "gemini-2.5-pro" |}.

Definition visionary_agent : LlmAgent :=
  {| agent_model := gemini_2_5_pro;
     name := "Visionary";
     instruction := "You are The Visionary. Analyze images and list 3 specific, vivid visual details that look spooky or mysterious." |}.

Definition investigator_agent : LlmAgent :=
  {| agent_model := gemini_2_5_pro;
     name := "Investigator";
     instruction :=
       "You are The Investigator. You MUST use Google Search to find verified historical facts. "
       ++ "Focus on: dark history, crimes, local legends, and specific dates. "
       ++ "Do NOT make up facts. If you can't find info, state that." |}.

Definition mythmaker_agent : LlmAgent :=
  {| agent_model := gemini_2_5_pro;
     name := "Bard";
     instruction := "You are The Local Mythmaker. Write a short 'Micro-Myth' (max 120 words) weaving verified history into a spooky narrative and first person to the user." |}.

Definition critic_agent : LlmAgent :=
  {| agent_model := gemini_2_5_pro;
     name := "Critic";
     instruction :=
       "You are the Editor. Evaluate the myth for spookiness and historical accuracy integration. "
       ++ "Return ONLY a JSON object: {'score': int (1-10), 'feedback': 'string'}. "
       ++ "Do not output markdown." |}.

(* ------------------------------------------------------------------ *)
(** ** 3. Orchestration and runner                                      *)
(* ------------------------------------------------------------------ *)

Inductive Level : Type := INFO | ERROR.

(** What a run has done to the outside: the requests sent to the service,
    oldest first, and the lines logged. *)
Record World : Type := {
  calls : list Request;
  log : list (Level * string)
}.

Definition initial_world : World := {| calls := []; log := [] |}.

Definition logger (lvl : Level) (msg : string) : M World unit :=
  modify (fun w => {| calls := calls w; log := log w ++ [(lvl, msg)] |}).

Record SessionMemory : Type := {
  visuals : string;
  lore : string;
  drafts : list string;
  final_myth : string
}.

Definition new_session_memory : SessionMemory :=
  {| visuals := ""; lore := ""; drafts := []; final_myth := "" |}.

Definition set_visuals (v : string) (m : SessionMemory) : SessionMemory :=
  {| visuals := v; lore := lore m; drafts := drafts m; final_myth := final_myth m |}.

Definition set_lore (v : string) (m : SessionMemory) : SessionMemory :=
  {| visuals := visuals m; lore := v; drafts := drafts m; final_myth := final_myth m |}.

Definition append_draft (draft : string) (m : SessionMemory) : SessionMemory :=
  {| visuals := visuals m; lore := lore m;
     drafts := drafts m ++ [draft]; final_myth := final_myth m |}.

Definition set_final_myth (v : string) (m : SessionMemory) : SessionMemory :=
  {| visuals := visuals m; lore := lore m; drafts := drafts m; final_myth := v |}.

(** The variables of the refine loop. *)
Record Locals : Type := {
  current_draft : string;
  feedback : PyVal;
  session_memory : SessionMemory
}.

Definition fallback : string := "No response generated.".

(** [bool(image_input)]: [None] and empty bytes are false. *)
Definition has_image (image_input : option string) : bool :=
  match image_input with
  | Some (String _ _) => true
  | _ => false
  end.

(** [full_text] after the loop over the parts: the parts whose text is
    neither [None] nor empty, appended in order. *)
Definition append_texts (ps : list Part) : string :=
  fold_left
    (fun full_text part =>
       match text part with
       | Some (String c t) => full_text ++ String c t
       | _ => full_text
       end)
    ps EmptyString.

(** The parts the loop of the gateway runs over: none when [candidates] or
    the first candidate's [parts] is empty or [None]; reading [.parts] of a
    [content] that is [None] raises. *)
Definition parts_to_read (response : GenerateContentResponse)
  : Outcome (list Part) :=
  match candidates response with
  | None | Some [] => Returned []
  | Some (first :: _) =>
      match content first with
      | None => Raised (AttributeError PyNone "parts")
      | Some c =>
          Returned (match parts c with Some ps => ps | None => [] end)
      end
  end.

(** Lines 110-116: the text extracted from a response. *)
Definition extract_text (response : GenerateContentResponse) : Outcome string :=
  match parts_to_read response with
  | Returned ps =>
      let full_text := append_texts ps in
      Returned (match full_text with
                | String _ _ => full_text
                | EmptyString => fallback
                end)
  | Raised e => Raised e
  end.

Section Pipeline.

(** The service behind [client]. *)
Variable client : Client.

(** [str(v)] for a [float], a [list] or a [dict] (for these it is their
    [repr]), which this development does not define. *)
Variable repr : PyVal -> string.

(** A replacement field [{v}] of an f-string. *)
Definition format_field (v : PyVal) : string :=
  match v with
  | PyStr s => s
  | PyInt z => str_of_int z
  | PyBool true => "True"
  | PyBool false => "False"
  | PyNone => "None"
  | _ => repr v
  end.

(** [client.models.generate_content(...)]: the request is recorded and the
    service answers. *)
Definition generate_content (request : Request) : M World GenerateContentResponse :=
  fun w =>
    (client (List.length (calls w)) request,
     {| calls := calls w ++ [request]; log := log w |}).

(** The request [execute_agent] builds (steps 1 to 3). *)
Definition build_request (mime_type : string) (agent : LlmAgent) (prompt : string)
  (image_input : option string) (use_google_search : bool) : Request :=
  let config :=
    {| system_instruction := instruction agent;
       temperature := QArith_base.Qmake 7 10;
       tools := if use_google_search then [GoogleSearch] else [];
       automatic_function_calling :=
         if use_google_search then Some {| disable := false |} else None |} in
  let content :=
    ((if has_image image_input
      then [PartFromBytes (match image_input with Some b => b | None => EmptyString end)
              mime_type]
      else [])
     ++ [Prompt prompt])%list in
  {| model := "gemini-2.5-pro"; contents := content; config := config |}.

(** The universal runner.  [mime_type] is the variable of [run_pipeline]
    the closure captures. *)
Definition execute_agent (mime_type : string) (agent : LlmAgent) (prompt : string)
  (image_input : option string) (use_google_search : bool) : M World string :=
  logger INFO ("⚡ Executing " ++ name agent ++ "...") ;;
  try_except
    (response <- generate_content
                   (build_request mime_type agent prompt image_input use_google_search) ;;
     lift (extract_text response))
    (fun e =>
       logger ERROR ("Agent " ++ name agent ++ " failed: " ++ exn_str e) ;;
       ret ("Error: " ++ exn_str e)).

(** Phase 2: context compaction. *)
Definition context_package (location visuals lore : string) : string :=
  "LOCATION: " ++ location ++ LF
  ++ "VISUALS: " ++ visuals ++ LF
  ++ "VERIFIED LORE: " ++ lore ++ LF.

(** Step 3a: the prompt of a generate call. *)
Definition prompt_text (feedback : PyVal) : string :=
  if truthy feedback
  then "Refine this myth based on feedback: " ++ format_field feedback
  else "Write the myth.".

Definition full_prompt (feedback : PyVal) (context_package : string) : string :=
  prompt_text feedback ++ LF ++ LF ++ "CONTEXT:" ++ LF ++ context_package.

(** The normalisation of the critic's output before it is decoded. *)
Definition clean_json (eval_result : string) : string :=
  strip (replace (replace eval_result "```json" "") "```" "").

Definition set_feedback (v : PyVal) : M Locals unit :=
  modify (fun st => {| current_draft := current_draft st;
                       feedback := v;
                       session_memory := session_memory st |}).

(** The body of the [try] of lines 177-184; it returns whether [break] is
    reached. *)
Definition try_block (eval_result : string) : M Locals bool :=
  data <- lift (json_loads (clean_json eval_result)) ;;
  score <- lift (get data "score" (PyInt 0)) ;;
  fb <- lift (get data "feedback" (PyStr "Good.")) ;;
  set_feedback fb ;;
  lift (ge_8 score).

(** The [try] with its bare [except: break]. *)
Definition evaluate (eval_result : string) (st : Locals) : Flow Locals :=
  match try_block eval_result st with
  | (Returned true, st') => Break st'
  | (Returned false, st') => Continue st'
  | (Raised _, st') => Break st'
  end.

(** One pass of the loop of phase 3. *)
Definition refine_step (mime_type context_package : string) (i : nat) (st : Locals)
  : M World (Flow Locals) :=
  draft <- execute_agent mime_type mythmaker_agent
             (full_prompt (feedback st) context_package) None false ;;
  let st1 := {| current_draft := draft;
                feedback := feedback st;
                session_memory := append_draft draft (session_memory st) |} in
  eval_result <- execute_agent mime_type critic_agent
                   ("Evaluate:" ++ LF ++ draft) None false ;;
  ret (evaluate eval_result st1).

Definition run_pipeline (image_bytes : string) (mime_type location : string)
  : M World SessionMemory :=
  let memory := new_session_memory in
  logger INFO "--- Phase 1: Parallel ---" ;;
  (* the two tasks of [asyncio.gather]; the results come back in task order *)
  visuals <- execute_agent mime_type visionary_agent
               "Describe the atmosphere." (Some image_bytes) false ;;
  lore <- execute_agent mime_type investigator_agent
            ("Find specific dark history and ghost stories for: " ++ location)
            None true ;;
  let memory := set_lore lore (set_visuals visuals memory) in
  let context := context_package location visuals lore in
  logger INFO "--- Phase 3: Loop ---" ;;
  st <- for_range 2 0 (refine_step mime_type context)
          {| current_draft := ""; feedback := PyStr ""; session_memory := memory |} ;;
  ret (set_final_myth (current_draft st) (session_memory st)).

End Pipeline.

(* ------------------------------------------------------------------ *)
(** ** Names for what the gateway and the loop compute                  *)
(* ------------------------------------------------------------------ *)

(** The string [execute_agent] returns when the call has outcome [o]
    (see [execute_agent_run]). *)
Definition gateway_text (o : Outcome GenerateContentResponse) : string :=
  match o with
  | Raised e => "Error: " ++ exn_str e
  | Returned response =>
      match extract_text response with
      | Returned t => t
      | Raised e => "Error: " ++ exn_str e
      end
  end.

(** The exception the handler of [execute_agent] receives, if any. *)
Definition gateway_exn (o : Outcome GenerateContentResponse) : option PyExn :=
  match o with
  | Raised e => Some e
  | Returned response =>
      match extract_text response with
      | Returned _ => None
      | Raised e => Some e
      end
  end.

(** The lines [execute_agent] logs. *)
Definition gateway_log (agent : LlmAgent) (o : Outcome GenerateContentResponse)
  : list (Level * string) :=
  (INFO, "⚡ Executing " ++ name agent ++ "...")
  :: match gateway_exn o with
     | Some e => [(ERROR, "Agent " ++ name agent ++ " failed: " ++ exn_str e)]
     | None => []
     end.

(** The texts of the text-bearing parts: those with a non-empty text. *)
Fixpoint text_parts (ps : list Part) : list string :=
  match ps with
  | [] => []
  | p :: ps' =>
      match text p with
      | Some (String c t) => String c t :: text_parts ps'
      | _ => text_parts ps'
      end
  end.

(** Number of requests of a run that carry the instruction of [agent]
    (the four roles have four different instructions). *)
Definition calls_to (agent : LlmAgent) (w : World) : nat :=
  List.length
    (filter (fun r => String.eqb (system_instruction (config r)) (instruction agent))
       (calls w)).

(** The prompt of a request: the text item that ends its contents. *)
Definition prompt_of (r : Request) : option string :=
  match rev (contents r) with
  | Prompt p :: _ => Some p
  | _ => None
  end.

(** [st] with [feedback] assigned. *)
Definition with_feedback (v : PyVal) (st : Locals) : Locals :=
  {| current_draft := current_draft st; feedback := v;
     session_memory := session_memory st |}.

(** [d.get(key, default)] on the pairs of a [dict]. *)
Definition get_or (d : list (string * PyVal)) (key : string) (default : PyVal) : PyVal :=
  match dict_lookup key d with Some v => v | None => default end.

(** The service as it answers once [k] calls have been made. *)
Definition shift (k : nat) (client : Client) : Client :=
  fun n request => client (k + n) request.

(** The world [w] with earlier requests and log lines in front. *)
Definition after_history (earlier : World) (w : World) : World :=
  {| calls := calls earlier ++ calls w; log := log earlier ++ log w |}.

(** [m], run after the history [earlier], does what [m'] does without it. *)
Definition framed {A} (earlier : World) (m m' : M World A) : Prop :=
  forall w,
    m (after_history earlier w)
    = (fst (m' w), after_history earlier (snd (m' w))).



(* ------------------------------------------------------------------ *)
(** ** The evaluation record as the specification words it              *)
(* ------------------------------------------------------------------ *)

Module Spec.

(** "absent/invalid fields default (score -> 0, feedback -> Good.)": a
    score that is not an integer, or a feedback that is not a string,
    counts as invalid. *)
Definition score (d : list (string * PyVal)) : Z :=
  match dict_lookup "score" d with
  | Some (PyInt z) => z
  | _ => 0%Z
  end.

Definition feedback (d : list (string * PyVal)) : string :=
  match dict_lookup "feedback" d with
  | Some (PyStr s) => s
  | _ => "Good."
  end.

(** "If score >= 8, transition to ACCEPT.  Otherwise transition to
    CONTINUE: the extracted feedback becomes input to the next GENERATE." *)
Definition evaluate (d : list (string * PyVal)) (st : Locals) : Flow Locals :=
  if (score d >=? 8)%Z
  then Break (with_feedback (PyStr (feedback d)) st)
  else Continue (with_feedback (PyStr (feedback d)) st).

End Spec.

(* ------------------------------------------------------------------ *)
(** ** Scripted services, for the examples                              *)
(* ------------------------------------------------------------------ *)

Module Script.

(** A response with one candidate and one text part. *)
Definition say (t : string) : Outcome GenerateContentResponse :=
  Returned
    {| candidates :=
         Some [ {| content := Some {| parts := Some [ {| text := Some t |} ] |} |} ] |}.

Definition unavailable : PyExn :=
  {| exn_class := "ServerError"; exn_str := "503 UNAVAILABLE" |}.

(** The service answers its [n]-th call with the [n]-th outcome, and
    fails once the script is over. *)
Definition scripted (outs : list (Outcome GenerateContentResponse)) : Client :=
  fun n _ => nth n outs (Raised unavailable).

(** A [repr] good enough for examples that never format a float, a list
    or a dict. *)
Definition no_repr : PyVal -> string := fun _ => EmptyString.

Definition DQ : string := chr 34.

(** The text of the object [{k1: v1, k2: v2}], values given as JSON text. *)
Definition object2 (k1 v1 k2 v2 : string) : string :=
  "{" ++ DQ ++ k1 ++ DQ ++ ": " ++ v1 ++ ", " ++ DQ ++ k2 ++ DQ ++ ": " ++ v2 ++ "}".

Definition quoted (s : string) : string := DQ ++ s ++ DQ.

(** [{"score": 9, "feedback": "great"}] *)
Definition accept_reply : string := object2 "score" "9" "feedback" (quoted "great").

(** [{"score": 3, "feedback": "needs more dread"}], fenced as markdown. *)
Definition continue_reply : string :=
  "```json" ++ LF ++ object2 "score" "3" "feedback" (quoted "needs more dread")
  ++ LF ++ "```".

(** [{"score": "high", "feedback": "needs more dread"}] *)
Definition invalid_score_reply : string :=
  object2 "score" (quoted "high") "feedback" (quoted "needs more dread").

(** [{"score": 3, "feedback": ""}] *)
Definition empty_feedback_reply : string :=
  object2 "score" "3" "feedback" (quoted "").

(** [{"feedback": "darker"}] *)
Definition no_score_reply : string :=
  "{" ++ quoted "feedback" ++ ": " ++ quoted "darker" ++ "}".

Definition prose_reply : string := "The myth is chilling. 9/10.".

Definition two_pass : Client :=
  scripted [say "fog"; say "ghosts"; say "draft one"; say continue_reply;
            say "draft two"; say accept_reply].

Definition two_pass' : Client :=
  scripted [say "fog"; say "ghosts"; say "draft one"; say continue_reply;
            say "draft two"; say prose_reply].

Definition one_pass : Client :=
  scripted [say "fog"; say "ghosts"; say "draft one"; say accept_reply].

Definition prose_critic : Client :=
  scripted [say "fog"; say "ghosts"; say "draft one"; say prose_reply].

Definition invalid_score_critic : Client :=
  scripted [say "fog"; say "ghosts"; say "draft one"; say invalid_score_reply;
            say "draft two"; say accept_reply].

Definition empty_feedback_critic : Client :=
  scripted [say "fog"; say "ghosts"; say "draft one"; say empty_feedback_reply;
            say "draft two"; say accept_reply].

(** Every call fails. *)
Definition down : Client := scripted [].

(** A response whose only part spells the fallback text. *)
Definition echo_fallback : GenerateContentResponse :=
  {| candidates :=
       Some [ {| content := Some {| parts := Some [ {| text := Some fallback |} ] |} |} ] |}.

(** A response of two text parts around a part without text. *)
Definition fog_and_ravens : GenerateContentResponse :=
  {| candidates :=
       Some [ {| content :=
                   Some {| parts := Some [ {| text := Some "fog, " |};
                                           {| text := None |};
                                           {| text := Some "ravens" |} ] |} |} ] |}.

Definition sample_locals : Locals :=
  {| current_draft := "draft one"; feedback := PyStr "";
     session_memory := append_draft "draft one" new_session_memory |}.

End Script.

(* ------------------------------------------------------------------ *)
(** ** 1. Setup and 4. UI: one run of the script                        *)
(* ------------------------------------------------------------------ *)

(** The page is rebuilt by running the whole script again after each
    interaction.  The widgets hand the script their current values; what
    the script shows is the list of the elements it emits, in order
    (containers are listed like the other elements, before what they
    hold); [st.session_state] and the world outlive the run. *)

Module st.

(** What [st.file_uploader] returns for an uploaded file. *)
Record UploadedFile : Type := { getvalue : string; type : string }.

(** What [Image.open] returns. *)
Record PILImage : Type := { fp : UploadedFile }.

Inductive Element : Type :=
| set_page_config (page_title layout : string)
| title (body : string)
| columns (spec : list nat)
| text_input (label value : string)
| file_uploader (label : string) (types : list string)
| button (label : string)
| status (label : string) (expanded : bool)
| status_update (label state : string) (expanded : bool)
| error (body : string)
| divider
| image (img : PILImage) (caption : string) (use_container_width : bool)
| subheader (body : string)
| markdown (body : string) (unsafe_allow_html : bool)
| expander (label : string) (expanded : bool)
| write (body : string)
| info (body : string)
| text (body : string).

(** [st.session_state]; a key may be absent. *)
Record SessionState : Type := {
  memory : option SessionMemory;
  analysis_complete : option bool;
  current_image : option PILImage
}.

Definition no_session_state : SessionState :=
  {| memory := None; analysis_complete := None; current_image := None |}.

End st.

(** The values of the environment and of the widgets during one run of
    the script: the key read from the environment, the text of the
    location field, the uploaded file if any, and whether the run was
    caused by a click on the button. *)
Record Inputs : Type := {
  GOOGLE_API_KEY : option string;
  location_input : string;
  uploaded_file : option st.UploadedFile;
  summon : bool
}.

Record App : Type := {
  page : list st.Element;
  session_state : st.SessionState;
  world : World
}.

Definition emit (e : st.Element) : M App unit :=
  modify (fun app => {| page := page app ++ [e];
                        session_state := session_state app;
                        world := world app |}).

Definition set_session_state (f : st.SessionState -> st.SessionState) : M App unit :=
  modify (fun app => {| page := page app;
                        session_state := f (session_state app);
                        world := world app |}).

(** A computation of the pipeline, run on the world of the application. *)
Definition in_world {A} (m : M World A) : M App A :=
  fun app =>
    let (o, w) := m (world app) in
    (o, {| page := page app; session_state := session_state app; world := w |}).

(** Reading a key of [st.session_state]; the message of the exception
    for an absent key is not modelled. *)
Definition session_attribute {A} (key : option A) : Outcome A :=
  match key with
  | Some v => Returned v
  | None => Raised {| exn_class := "AttributeError"; exn_str := EmptyString |}
  end.

(** [for x in l: body(x)]. *)
Fixpoint for_each {St A} (l : list A) (body : A -> M St unit) : M St unit :=
  match l with
  | [] => ret tt
  | x :: l' => bind (body x) (fun _ => for_each l' body)
  end.

(** [enumerate(l)]. *)
Definition enumerate {A} (l : list A) : list (nat * A) :=
  combine (seq 0 (List.length l)) l.

(** A line of the iteration log. *)
Definition draft_line (idx : nat) (draft : string) : string :=
  "Draft " ++ str_of_int (Z.of_nat idx + 1) ++ ": " ++ slice_to 100 draft ++ "...".

(** The markup of the myth box. *)
Definition myth_box (myth : string) : string :=
  "<div class=" ++ chr 34 ++ "myth-box" ++ chr 34 ++ ">" ++ myth ++ "</div>".

Section Script.

Variable client : Client.
Variable repr : PyVal -> string.

(** [Image.open]: an image, or the exception for a file it cannot read. *)
Variable Image_open : st.UploadedFile -> Outcome st.PILImage.

(** Lines 204-219: what a click does once a file and a location are
    there. *)
Definition summon_agents (file : st.UploadedFile) (location_input : string)
  : M App unit :=
  let image_bytes := st.getvalue file in
  let mime_type := st.type file in
  display_image <- lift (Image_open file) ;;
  emit (st.status "🔮 Agents are communing..." true) ;;
  try_except
    (memory <- in_world (run_pipeline client repr image_bytes mime_type
                           location_input) ;;
     set_session_state
       (fun ss => {| st.memory := Some memory;
                     st.analysis_complete := st.analysis_complete ss;
                     st.current_image := st.current_image ss |}) ;;
     set_session_state
       (fun ss => {| st.memory := st.memory ss;
                     st.analysis_complete := Some true;
                     st.current_image := st.current_image ss |}) ;;
     set_session_state
       (fun ss => {| st.memory := st.memory ss;
                     st.analysis_complete := st.analysis_complete ss;
                     st.current_image := Some display_image |}) ;;
     emit (st.status_update "Myth Manifested!" "complete" false))
    (fun e =>
       emit (st.error ("Error: " ++ exn_str e)) ;;
       in_world (logger ERROR "Trace:")).

(** Lines 221-243: the result panel. *)
Definition show_results (location_input : string) : M App unit :=
  fun app =>
    match st.analysis_complete (session_state app) with
    | Some true =>
        (emit st.divider ;;
         mem <- lift (session_attribute (st.memory (session_state app))) ;;
         emit (st.columns [2; 3]) ;;
         img <- lift (session_attribute (st.current_image (session_state app))) ;;
         emit (st.image img "Analyzed Artifact" true) ;;
         emit (st.subheader ("The Myth of " ++ location_input)) ;;
         emit (st.markdown (myth_box (final_myth mem)) true) ;;
         emit (st.markdown "---" false) ;;
         emit (st.expander "🔍 Investigator's Notes (Real Data)" false) ;;
         emit (st.markdown "### 🕸️ Visual Analysis" false) ;;
         emit (st.write (visuals mem)) ;;
         emit (st.markdown "### 📜 Verified History" false) ;;
         emit (st.info (lore mem)) ;;
         emit (st.markdown "### 🔄 Iteration Log" false) ;;
         for_each (enumerate (drafts mem))
           (fun '(idx, draft) => emit (st.text (draft_line idx draft)))) app
    | _ => ret tt app
    end.

(** The script, from the key check to the result panel. *)
Definition script (inputs : Inputs) : M App unit :=
  match GOOGLE_API_KEY inputs with
  | Some (String _ _) =>
      emit (st.set_page_config "Mythmaker" "wide") ;;
      emit (st.title "The Local Mythmaker") ;;
      emit (st.columns [1; 1]) ;;
      emit (st.text_input "Enter Location" "Tower of London") ;;
      emit (st.file_uploader "Upload Artifact" ["jpg"; "png"; "jpeg"]) ;;
      emit (st.button "Summon Agents") ;;
      (if summon inputs
       then match uploaded_file inputs, location_input inputs with
            | Some file, String _ _ => summon_agents file (location_input inputs)
            | _, _ => ret tt
            end
       else ret tt) ;;
      show_results (location_input inputs)
  | _ =>
      (* [st.error] then [st.stop()]: the run ends here *)
      emit (st.error "Missing GOOGLE_API_KEY in .env")
  end.

(** A run of the script on what the previous runs left: the page starts
    empty, the session state and the world are kept. *)
Definition rerun (inputs : Inputs) (app : App) : Outcome unit * App :=
  script inputs {| page := []; session_state := session_state app;
                   world := world app |}.

End Script.

(** The application when the process starts. *)
Definition new_app : App :=
  {| page := []; session_state := st.no_session_state; world := initial_world |}.

(** The elements every run shows first. *)
Definition widgets : list st.Element :=
  [st.set_page_config "Mythmaker" "wide"; st.title "The Local Mythmaker";
   st.columns [1; 1]; st.text_input "Enter Location" "Tower of London";
   st.file_uploader "Upload Artifact" ["jpg"; "png"; "jpeg"];
   st.button "Summon Agents"].

(** The elements of the result panel. *)
Definition results_view (location_input : string) (mem : SessionMemory)
  (img : st.PILImage) : list st.Element :=
  ([st.divider; st.columns [2; 3]; st.image img "Analyzed Artifact" true;
    st.subheader ("The Myth of " ++ location_input);
    st.markdown (myth_box (final_myth mem)) true;
    st.markdown "---" false;
    st.expander "🔍 Investigator's Notes (Real Data)" false;
    st.markdown "### 🕸️ Visual Analysis" false;
    st.write (visuals mem);
    st.markdown "### 📜 Verified History" false;
    st.info (lore mem);
    st.markdown "### 🔄 Iteration Log" false]
   ++ map (fun '(idx, draft) => st.text (draft_line idx draft))
        (enumerate (drafts mem)))%list.

(** Whenever the results are marked complete, the memory and the image
    they are drawn from are there. *)
Definition consistent (ss : st.SessionState) : Prop :=
  st.analysis_complete ss = Some true ->
  st.memory ss <> None /\ st.current_image ss <> None.

(* ------------------------------------------------------------------ *)
(** ** More scripted services, files and clicks                         *)
(* ------------------------------------------------------------------ *)

Module Cases.
Import Script.

(** The Critic cannot be reached. *)
Definition critic_down : Client :=
  scripted [say "fog"; say "ghosts"; say "draft one"].

(** A response without candidates. *)
Definition silence : GenerateContentResponse := {| candidates := Some [] |}.

Definition critic_silent : Client :=
  scripted [say "fog"; say "ghosts"; say "draft one"; Returned silence].

(** The Bard fails at once, or on the second pass. *)
Definition bard_down : Client :=
  scripted [say "fog"; say "ghosts"; Raised unavailable; say accept_reply].

Definition bard_down_later : Client :=
  scripted [say "fog"; say "ghosts"; say "draft one"; say continue_reply;
            Raised unavailable; say accept_reply].

(** The Visionary fails. *)
Definition vision_down : Client :=
  scripted [Raised unavailable; say "ghosts"; say "draft one"; say accept_reply].

(** As [two_pass], with another first draft. *)
Definition two_pass_other_draft : Client :=
  scripted [say "fog"; say "ghosts"; say "another draft"; say continue_reply;
            say "draft two"; say accept_reply].

(** What stands between the braces of [accept_reply]. *)
Definition accept_body : string :=
  DQ ++ "score" ++ DQ ++ ": 9, " ++ DQ ++ "feedback" ++ DQ ++ ": " ++ quoted "great".

Definition raven : st.UploadedFile :=
  {| st.getvalue := "IMG"; st.type := "image/png" |}.

(** An [Image.open] that reads every file, and one that reads none. *)
Definition open_any : st.UploadedFile -> Outcome st.PILImage :=
  fun file => Returned {| st.fp := file |}.

Definition unidentified : PyExn :=
  {| exn_class := "UnidentifiedImageError"; exn_str := "cannot identify image file" |}.

Definition open_none : st.UploadedFile -> Outcome st.PILImage :=
  fun _ => Raised unidentified.

Definition click (location : string) (file : option st.UploadedFile) : Inputs :=
  {| GOOGLE_API_KEY := Some "key"; location_input := location;
     uploaded_file := file; summon := true |}.

Definition no_click (location : string) (file : option st.UploadedFile) : Inputs :=
  {| GOOGLE_API_KEY := Some "key"; location_input := location;
     uploaded_file := file; summon := false |}.

Definition one_draft : SessionMemory :=
  {| visuals := "fog"; lore := "ghosts"; drafts := ["draft one"];
     final_myth := "draft one" |}.

End Cases.

(* ------------------------------------------------------------------ *)
(** ** A run, call by call                                              *)
(* ------------------------------------------------------------------ *)

Section Run.

Variable client : Client.
Variable repr : PyVal -> string.
Variables image_bytes mime_type location : string.

(** Call 0: the Visionary, with the image. *)
Definition vision_request : Request :=
  build_request mime_type visionary_agent "Describe the atmosphere."
    (Some image_bytes) false.

Definition gathered_visuals : string := gateway_text (client 0 vision_request).

(** Call 1: the Investigator, with search. *)
Definition investigation_request : Request :=
  build_request mime_type investigator_agent
    ("Find specific dark history and ghost stories for: " ++ location) None true.

Definition gathered_lore : string := gateway_text (client 1 investigation_request).

Definition compacted : string :=
  context_package location gathered_visuals gathered_lore.

Definition gathered_memory : SessionMemory :=
  set_lore gathered_lore (set_visuals gathered_visuals new_session_memory).

(** A generate call of the Bard, whose prompt depends on [feedback]. *)
Definition generate_request (feedback : PyVal) : Request :=
  build_request mime_type mythmaker_agent (full_prompt repr feedback compacted)
    None false.

(** An evaluate call of the Critic on a draft. *)
Definition evaluate_request (draft : string) : Request :=
  build_request mime_type critic_agent ("Evaluate:" ++ LF ++ draft) None false.

(** Calls 2 and 3: the first pass. *)
Definition first_draft : string :=
  gateway_text (client 2 (generate_request (PyStr ""))).

Definition first_evaluation : string :=
  gateway_text (client 3 (evaluate_request first_draft)).

(** The loop variables when the first evaluation is examined. *)
Definition first_locals : Locals :=
  {| current_draft := first_draft;
     feedback := PyStr "";
     session_memory := append_draft first_draft gathered_memory |}.

(** Calls 4 and 5: the second pass, entered with [feedback]. *)
Definition second_draft (feedback : PyVal) : string :=
  gateway_text (client 4 (generate_request feedback)).

Definition second_evaluation (feedback : PyVal) : string :=
  gateway_text (client 5 (evaluate_request (second_draft feedback))).

(** The memory returned after one pass and after two, and the requests
    sent by then. *)
Definition memory_after_one : SessionMemory :=
  set_final_myth first_draft (append_draft first_draft gathered_memory).

Definition memory_after_two (feedback : PyVal) : SessionMemory :=
  set_final_myth (second_draft feedback)
    (append_draft (second_draft feedback) (append_draft first_draft gathered_memory)).

Definition calls_of_one : list Request :=
  [vision_request; investigation_request;
   generate_request (PyStr ""); evaluate_request first_draft].

Definition calls_of_two (feedback : PyVal) : list Request :=
  (calls_of_one
   ++ [generate_request feedback; evaluate_request (second_draft feedback)])%list.

(** A whole run, from the initial world. *)
Definition run : Outcome SessionMemory * World :=
  run_pipeline client repr image_bytes mime_type location initial_world.

(* ================================================================== *)
(** * Properties                                                        *)
(* ================================================================== *)

(** ** Text *)

Lemma append_empty_r (s : string) : s ++ EmptyString = s.
Proof. induction s as [| c s IH]; cbn; [| rewrite IH]; reflexivity. Qed.

Lemma append_assoc (a b c : string) : (a ++ b) ++ c = a ++ (b ++ c).
Proof. induction a as [| x a IH]; cbn; [| rewrite IH]; reflexivity. Qed.

Lemma length_append (a b : string) :
  String.length (a ++ b) = String.length a + String.length b.
Proof. induction a as [| x a IH]; cbn; [| rewrite IH]; reflexivity. Qed.

(** A string occurs in whatever is built around it. *)
Lemma prefix_append (n b : string) : prefix n (n ++ b) = true.
Proof.
  induction n as [| c n IH]; cbn; [now destruct b |].
  destruct (ascii_dec c c); [exact IH | contradiction].
Qed.

Lemma occurrences_inside (n a b : string) : 1 <= occurrences n (a ++ n ++ b).
Proof.
  induction a as [| c a IH]; cbn [append].
  - pose proof (prefix_append n b) as H.
    destruct (n ++ b) eqn:E; cbn [occurrences]; rewrite H; lia.
  - cbn [occurrences]. lia.
Qed.

Lemma free_of_append sep (a b : string) :
  free_of sep (a ++ b) = free_of sep a && free_of sep b.
Proof.
  induction a as [| c a IH]; cbn; [reflexivity |].
  rewrite IH. now rewrite andb_assoc.
Qed.

(** Splitting takes off a first field that is free of the separator. *)
Lemma split_on_field sep (a rest : string) :
  free_of sep a = true ->
  split_on sep (a ++ String sep rest) = a :: split_on sep rest.
Proof.
  induction a as [| c a IH]; cbn [append split_on free_of].
  - intros _. now rewrite Ascii.eqb_refl.
  - intros H. apply andb_true_iff in H. destruct H as [Hc Ha].
    apply negb_true_iff in Hc. rewrite Hc, (IH Ha). reflexivity.
Qed.

Lemma split_on_line (a rest : string) :
  free_of NL a = true ->
  split_on NL (a ++ LF ++ rest) = a :: split_on NL rest.
Proof.
  intros H. change (LF ++ rest) with (String NL rest). now apply split_on_field.
Qed.

(** ** The decoder *)

(** Each scanner leaves less text than it was given, so the budget of
    [decode] is never used up: [loads] answers [None] only for a text
    that is not JSON. *)

Import Json.

Lemma skip_ws_length s : String.length (skip_ws s) <= String.length s.
Proof.
  induction s as [| c s IH]; cbn; [lia |].
  destruct (json_space c); cbn; lia.
Qed.

Lemma emit_some pre k x r :
  emit pre k = Some (x, r) -> exists body, k = Some (body, r).
Proof.
  unfold emit. destruct k as [[body rest] |]; [| discriminate].
  intros H. inversion H. now exists body.
Qed.

Lemma scanstring_shorter s :
  forall x r, scanstring s = Some (x, r) -> String.length r < String.length s.
Proof.
  remember (String.length s) as n eqn:Hn.
  assert (Hle : String.length s <= n) by lia. clear Hn.
  revert s Hle.
  induction n as [| n IH]; intros s Hle x r H.
  - destruct s; [discriminate | cbn in Hle; lia].
  - destruct s as [| c s]; [discriminate |].
    cbn [scanstring] in H. cbn [String.length] in *.
    repeat match type of H with
           | context [if ?b then _ else _] => destruct b
           | context [match ?t with _ => _ end] => destruct t eqn:?
           end;
      try discriminate;
      try (inversion H; subst; cbn [String.length]; lia);
      try (apply emit_some in H; destruct H as [body H];
           apply IH in H; cbn [String.length] in *; lia).
Qed.

Lemma take_digits_length s :
  String.length (snd (take_digits s)) <= String.length s.
Proof.
  induction s as [| c s IH]; cbn; [lia |].
  destruct (is_digit c); [| cbn; lia].
  destruct (take_digits s) as [ds rest]. cbn in *. lia.
Qed.

Lemma scan_int_part_shorter s ip r :
  scan_int_part s = Some (ip, r) -> String.length r < String.length s.
Proof.
  destruct s as [| c s]; cbn; [discriminate |].
  destruct (ord c =? 48)%N; [intros H; inversion H; subst; lia |].
  destruct (is_digit c); [| discriminate].
  pose proof (take_digits_length s) as Hd.
  destruct (take_digits s) as [ds rest]. intros H. inversion H; subst. cbn in Hd. lia.
Qed.

Lemma scan_frac_length s :
  String.length (snd (scan_frac s)) <= String.length s.
Proof.
  destruct s as [| c [| d s]]; cbn [scan_frac]; try (cbn; lia).
  destruct ((ord c =? 46)%N && is_digit d); [| cbn; lia].
  pose proof (take_digits_length (String d s)) as Hd.
  destruct (take_digits (String d s)) as [ds rest]. cbn in *. lia.
Qed.

Lemma scan_exp_length s :
  String.length (snd (scan_exp s)) <= String.length s.
Proof.
  destruct s as [| c s]; cbn [scan_exp]; [cbn; lia |].
  destruct ((ord c =? 101) || (ord c =? 69))%N; [| cbn; lia].
  destruct s as [| g s]; [cbn; lia |].
  destruct ((ord g =? 43) || (ord g =? 45))%N.
  - destruct s as [| d s]; [cbn; lia |].
    destruct (is_digit d) eqn:Ed; [| cbn; lia].
    pose proof (take_digits_length (String d s)) as Hd.
    destruct (take_digits (String d s)) as [ds rest]. cbn in *. lia.
  - destruct (is_digit g) eqn:Eg; [| cbn; lia].
    pose proof (take_digits_length (String g s)) as Hd.
    destruct (take_digits (String g s)) as [ds rest]. cbn in *. lia.
Qed.

Lemma scan_number_shorter s v r :
  scan_number s = Some (v, r) -> String.length r < String.length s.
Proof.
  unfold scan_number.
  set (p := match s with
            | String c r0 => if (ord c =? 45)%N then (true, r0) else (false, s)
            | EmptyString => (false, s)
            end).
  assert (Hp : String.length (snd p) <= String.length s).
  { unfold p. destruct s as [| c s]; cbn; [lia |].
    destruct (ord c =? 45)%N; cbn; lia. }
  destruct p as [neg s1]. cbn [snd] in Hp.
  destruct (scan_int_part s1) as [[ip s2] |] eqn:Ei; [| discriminate].
  apply scan_int_part_shorter in Ei.
  pose proof (scan_frac_length s2) as Hf.
  destruct (scan_frac s2) as [frac s3]. cbn [snd] in Hf.
  pose proof (scan_exp_length s3) as He.
  destruct (scan_exp s3) as [ex s4]. cbn [snd] in He.
  destruct frac, ex; intros H; inversion H; subst; lia.
Qed.

Lemma after_length w : forall s r,
  after w s = Some r -> String.length s = String.length w + String.length r.
Proof.
  induction w as [| a w IH]; intros s r H; cbn in H.
  - inversion H. reflexivity.
  - destruct s as [| b s]; [discriminate |].
    destruct (Ascii.eqb a b); [| discriminate].
    apply IH in H. cbn. lia.
Qed.

Lemma scan_atom_shorter s v r :
  scan_atom s = Ok v r -> String.length r < String.length s.
Proof.
  unfold scan_atom.
  repeat match goal with
         | |- context [match after ?w s with _ => _ end] =>
             let E := fresh "E" in
             destruct (after w s) eqn:E;
             [apply after_length in E; cbn [String.length] in E;
              intros H; inversion H; subst; lia |]
         | |- context [match scan_number s with _ => _ end] =>
             let E := fresh "E" in
             destruct (scan_number s) as [[v0 r0] |] eqn:E;
             [apply scan_number_shorter in E; intros H; inversion H; subst; lia |]
         end.
  discriminate.
Qed.

Ltac ws_cases r :=
  let Hw := fresh "Hw" in
  let E := fresh "E" in
  pose proof (skip_ws_length r) as Hw;
  destruct (skip_ws r) eqn:E; cbn [String.length] in Hw.

Lemma scan_shorter fuel :
  (forall s v r, scan_once fuel s = Ok v r -> String.length r < String.length s)
  /\ (forall s acc v r,
         json_array fuel s acc = Ok v r -> String.length r < String.length s)
  /\ (forall s acc v r,
         json_object fuel s acc = Ok v r -> String.length r < String.length s).
Proof.
  induction fuel as [| f (IHv & IHa & IHo)];
    [repeat split; intros; discriminate |].
  repeat split.
  - intros s v r. cbn [scan_once].
    destruct s as [| c s]; [discriminate |]. cbv zeta. cbn [String.length].
    destruct (ord c =? 34)%N.
    { destruct (scanstring s) as [[str r'] |] eqn:E; [| discriminate].
      apply scanstring_shorter in E. intros H; inversion H; subst. lia. }
    destruct (ord c =? 123)%N.
    { ws_cases s; [discriminate |].
      destruct (ord a =? 125)%N.
      - intros H; inversion H; subst. lia.
      - intros H. apply IHo in H. cbn [String.length] in H. lia. }
    destruct (ord c =? 91)%N.
    { ws_cases s; [discriminate |].
      destruct (ord a =? 93)%N.
      - intros H; inversion H; subst. lia.
      - intros H. apply IHa in H. cbn [String.length] in H. lia. }
    intros H. apply scan_atom_shorter in H. cbn [String.length] in H. lia.
  - intros s acc v r. cbn [json_array].
    destruct (scan_once f s) as [v0 r0 | |] eqn:E; try discriminate.
    apply IHv in E.
    ws_cases r0; [discriminate |].
    destruct (ord a =? 93)%N; [intros H; inversion H; subst; lia |].
    destruct (ord a =? 44)%N; [| discriminate].
    intros H. apply IHa in H. pose proof (skip_ws_length s0) as Hs0. lia.
  - intros s acc v r. cbn [json_object].
    destruct s as [| q0 s]; [discriminate |]. cbn [String.length].
    destruct (ord q0 =? 34)%N; [| discriminate].
    destruct (scanstring s) as [[key r1] |] eqn:Ek; [| discriminate].
    apply scanstring_shorter in Ek.
    ws_cases r1; [discriminate |].
    destruct (ord a =? 58)%N; [| discriminate].
    destruct (scan_once f (skip_ws s0)) as [v0 r3 | |] eqn:Ev; try discriminate.
    apply IHv in Ev. pose proof (skip_ws_length s0) as Hs0.
    ws_cases r3; [discriminate |].
    destruct (ord a0 =? 125)%N; [intros H; inversion H; subst; lia |].
    destruct (ord a0 =? 44)%N; [| discriminate].
    intros H. apply IHo in H. pose proof (skip_ws_length s1) as Hs1. lia.
Qed.

Lemma never_exhausted fuel :
  (forall s, 2 * String.length s + 1 <= fuel -> scan_once fuel s <> Exhausted)
  /\ (forall s acc,
         2 * String.length s + 2 <= fuel -> json_array fuel s acc <> Exhausted)
  /\ (forall s acc,
         2 * String.length s + 2 <= fuel -> json_object fuel s acc <> Exhausted).
Proof.
  induction fuel as [| f (IHv & IHa & IHo)]; [repeat split; intros; lia |].
  destruct (scan_shorter f) as (Sv & Sa & So).
  repeat split.
  - intros s Hf. cbn [scan_once].
    destruct s as [| c s]; [discriminate |]. cbv zeta. cbn [String.length] in Hf.
    destruct (ord c =? 34)%N.
    { destruct (scanstring s) as [[str r'] |]; discriminate. }
    destruct (ord c =? 123)%N.
    { ws_cases s; [discriminate |].
      destruct (ord a =? 125)%N; [discriminate |].
      apply IHo. cbn [String.length]. lia. }
    destruct (ord c =? 91)%N.
    { ws_cases s; [discriminate |].
      destruct (ord a =? 93)%N; [discriminate |].
      apply IHa. cbn [String.length]. lia. }
    unfold scan_atom.
    repeat match goal with
           | |- context [match ?t with _ => _ end] => destruct t
           end; discriminate.
  - intros s acc Hf. cbn [json_array].
    pose proof (IHv s ltac:(lia)) as Hv.
    destruct (scan_once f s) as [v0 r0 | |] eqn:E; [| discriminate | contradiction].
    apply Sv in E.
    ws_cases r0; [discriminate |].
    destruct (ord a =? 93)%N; [discriminate |].
    destruct (ord a =? 44)%N; [| discriminate].
    apply IHa. pose proof (skip_ws_length s0) as Hs0. lia.
  - intros s acc Hf. cbn [json_object].
    destruct s as [| q0 s]; [discriminate |]. cbn [String.length] in Hf.
    destruct (ord q0 =? 34)%N; [| discriminate].
    destruct (scanstring s) as [[key r1] |] eqn:Ek; [| discriminate].
    apply scanstring_shorter in Ek.
    ws_cases r1; [discriminate |].
    destruct (ord a =? 58)%N; [| discriminate].
    pose proof (skip_ws_length s0) as Hs0.
    pose proof (IHv (skip_ws s0) ltac:(lia)) as Hv.
    destruct (scan_once f (skip_ws s0)) as [v0 r3 | |] eqn:Ev;
      [| discriminate | contradiction].
    apply Sv in Ev.
    ws_cases r3; [discriminate |].
    destruct (ord a0 =? 125)%N; [discriminate |].
    destruct (ord a0 =? 44)%N; [| discriminate].
    apply IHo. pose proof (skip_ws_length s1) as Hs1. lia.
Qed.

(** The decoder always answers: a value or a decoding error. *)
Theorem decode_total s : decode s <> Exhausted.
Proof.
  unfold decode.
  pose proof (proj1 (never_exhausted (budget (skip_ws s))) (skip_ws s)) as H.
  unfold budget in *. specialize (H ltac:(lia)).
  destruct (scan_once (2 * String.length (skip_ws s) + 1) (skip_ws s)) as [v r | |];
    [destruct (skip_ws r); discriminate | discriminate | contradiction].
Qed.

Lemma json_loads_raised s e :
  json_loads s = Raised e -> Json.decode s = Json.Invalid /\ e = JSONDecodeError.
Proof.
  unfold json_loads, Json.loads. pose proof (decode_total s) as Ht.
  destruct (Json.decode s); intros H; try discriminate.
  - inversion H. split; reflexivity.
  - contradiction.
Qed.

(** ** The gateway *)

(** The loop over the parts appends the texts of the text-bearing parts. *)
Lemma append_texts_concat ps :
  append_texts ps = String.concat EmptyString (text_parts ps).
Proof.
  unfold append_texts.
  enough (H : forall acc,
             fold_left
               (fun full_text part =>
                  match text part with
                  | Some (String c t) => full_text ++ String c t
                  | _ => full_text
                  end) ps acc
             = acc ++ String.concat EmptyString (text_parts ps))
    by (rewrite H; reflexivity).
  induction ps as [| p ps IH]; intros acc; cbn [fold_left text_parts].
  - cbn. now rewrite append_empty_r.
  - destruct (text p) as [[| c t] |]; rewrite IH; try reflexivity.
    rewrite append_assoc. f_equal.
    cbn [String.concat]. destruct (text_parts ps); cbn; [now rewrite append_empty_r | reflexivity].
Qed.

(** The texts of text-bearing parts are not empty, so their concatenation
    is empty only when there is none. *)
Lemma concat_text_parts_empty ps :
  String.concat EmptyString (text_parts ps) = EmptyString -> text_parts ps = [].
Proof.
  induction ps as [| p ps IH]; cbn [text_parts]; [reflexivity |].
  destruct (text p) as [[| c t] |]; try exact IH.
  cbn [String.concat]. destruct (text_parts ps); cbn; discriminate.
Qed.

Lemma execute_agent_run agent prompt image_input search w :
  let request := build_request mime_type agent prompt image_input search in
  let o := client (List.length (calls w)) request in
  execute_agent client mime_type agent prompt image_input search w =
    (Returned (gateway_text o),
     {| calls := calls w ++ [request];
        log := log w ++ gateway_log agent o |}).
Proof.
  intros request o.
  unfold execute_agent, try_except, bind, logger, modify, generate_content, lift, ret.
  cbn [calls log]. fold request. fold o.
  unfold gateway_text, gateway_log, gateway_exn.
  destruct o as [response | e]; [destruct (extract_text response) as [t | e] |];
    cbn [calls log]; rewrite <- ?app_assoc; reflexivity.
Qed.

(** ** The refine loop *)

(** The [try] block, case by case. *)
Lemma evaluate_cases eval_result st :
  evaluate eval_result st =
    match json_loads (clean_json eval_result) with
    | Raised _ => Break st
    | Returned (PyDict d) =>
        let fb := get_or d "feedback" (PyStr "Good.") in
        match ge_8 (get_or d "score" (PyInt 0)) with
        | Returned false => Continue (with_feedback fb st)
        | _ => Break (with_feedback fb st)
        end
    | Returned _ => Break st
    end.
Proof.
  unfold evaluate, try_block, bind, lift, set_feedback, modify.
  destruct (json_loads (clean_json eval_result)) as [data | e]; [| reflexivity].
  destruct data; reflexivity.
Qed.

(** Whatever the critic says, the evaluation leaves the draft and the
    session memory alone: it can only assign [feedback]. *)
Lemma evaluate_frame eval_result st :
  exists fb,
    evaluate eval_result st = Break (with_feedback fb st)
    \/ evaluate eval_result st = Continue (with_feedback fb st).
Proof.
  assert (Hid : with_feedback (feedback st) st = st) by (destruct st; reflexivity).
  rewrite evaluate_cases.
  destruct (json_loads (clean_json eval_result)) as [data | e].
  - destruct data; try (exists (feedback st); left; now rewrite Hid).
    cbv zeta. exists (get_or d "feedback" (PyStr "Good.")).
    destruct (ge_8 (get_or d "score" (PyInt 0))) as [[|] | e]; auto.
  - exists (feedback st); left; now rewrite Hid.
Qed.

(** A computation that returns hands its value and state to the rest. *)
Lemma bind_returned {St A B} (m : M St A) (k : A -> M St B) st a st' :
  m st = (Returned a, st') -> bind m k st = k a st'.
Proof. intros H. unfold bind. rewrite H. reflexivity. Qed.

(** A pass of the loop: two calls, then the evaluation. *)
Lemma refine_step_run context i st w :
  let n := List.length (calls w) in
  let gen := build_request mime_type mythmaker_agent
               (full_prompt repr (feedback st) context) None false in
  let draft := gateway_text (client n gen) in
  let ev := build_request mime_type critic_agent ("Evaluate:" ++ LF ++ draft) None false in
  let eval_result := gateway_text (client (S n) ev) in
  refine_step client repr mime_type context i st w =
    (Returned (evaluate eval_result
                 {| current_draft := draft; feedback := feedback st;
                    session_memory := append_draft draft (session_memory st) |}),
     {| calls := calls w ++ [gen; ev];
        log := log w ++ gateway_log mythmaker_agent (client n gen)
                     ++ gateway_log critic_agent (client (S n) ev) |}).
Proof.
  intros n gen draft ev eval_result.
  unfold refine_step.
  erewrite bind_returned by apply execute_agent_run.
  erewrite bind_returned by apply execute_agent_run.
  cbn [calls log]. rewrite length_app. cbn [List.length].
  fold n. replace (n + 1) with (S n) by lia.
  unfold ret. rewrite <- !app_assoc. reflexivity.
Qed.

(** ** The driver *)

(** The run up to the first evaluation, and the rest of the loop. *)
Lemma run_unfold :
  exists lg,
    run =
      match evaluate first_evaluation first_locals with
      | Break st =>
          (Returned (set_final_myth (current_draft st) (session_memory st)),
           {| calls := calls_of_one; log := lg |})
      | Continue st =>
          bind (for_range 1 1 (refine_step client repr mime_type compacted) st)
               (fun st' => ret (set_final_myth (current_draft st') (session_memory st')))
               {| calls := calls_of_one; log := lg |}
      end.
Proof.
  eexists. unfold run, run_pipeline.
  erewrite bind_returned by reflexivity.
  erewrite bind_returned by apply execute_agent_run.
  erewrite bind_returned by apply execute_agent_run.
  erewrite bind_returned by reflexivity.
  cbn [for_range].
  unfold bind at 1. unfold bind at 1.
  rewrite refine_step_run.
  cbv zeta. cbn [calls log List.length app initial_world feedback session_memory].
  fold vision_request. fold gathered_visuals.
  fold investigation_request. fold gathered_lore. fold compacted.
  fold gathered_memory. fold (generate_request (PyStr "")). fold first_draft.
  fold (evaluate_request first_draft). fold first_evaluation. fold first_locals.
  fold calls_of_one.
  destruct (evaluate first_evaluation first_locals) as [st | st].
  - unfold bind. reflexivity.
  - unfold ret at 1. reflexivity.
Qed.

(** The second pass, when the first evaluation lets the loop go on. *)
Lemma second_pass_run st lg :
  exists lg',
    bind (for_range 1 1 (refine_step client repr mime_type compacted)
            (with_feedback (feedback st) first_locals))
         (fun st' => ret (set_final_myth (current_draft st') (session_memory st')))
         {| calls := calls_of_one; log := lg |}
    = (Returned (memory_after_two (feedback st)),
       {| calls := calls_of_two (feedback st); log := lg' |}).
Proof.
  eexists. cbn [for_range]. unfold bind at 1. unfold bind at 1.
  rewrite refine_step_run.
  cbv zeta. cbn [calls log List.length calls_of_one with_feedback feedback
                  session_memory first_locals current_draft].
  fold (generate_request (feedback st)). fold (second_draft (feedback st)).
  fold (evaluate_request (second_draft (feedback st))).
  fold (second_evaluation (feedback st)).
  match goal with
  | |- context [evaluate ?e ?l] => destruct (evaluate_frame e l) as [fb [H | H]]; rewrite H
  end; unfold ret; reflexivity.
Qed.

(** The two shapes of a run: one pass when the first evaluation breaks
    out of the loop, two passes when it does not. *)
Lemma run_cases :
  (exists st lg,
      evaluate first_evaluation first_locals = Break st
      /\ run = (Returned memory_after_one, {| calls := calls_of_one; log := lg |}))
  \/ (exists fb lg,
         evaluate first_evaluation first_locals = Continue (with_feedback fb first_locals)
         /\ run = (Returned (memory_after_two fb),
                   {| calls := calls_of_two fb; log := lg |})).
Proof.
  destruct run_unfold as [lg Hrun].
  destruct (evaluate_frame first_evaluation first_locals) as [fb [H | H]];
    rewrite H in Hrun.
  - left. exists (with_feedback fb first_locals), lg. split; [exact H |].
    rewrite Hrun. reflexivity.
  - right.
    destruct (second_pass_run (with_feedback fb first_locals) lg) as [lg' H2].
    cbn [with_feedback feedback] in H2.
    exists fb, lg'. split; [exact H |].
    rewrite Hrun. exact H2.
Qed.

(** The requests of a run, counted by role. *)
Lemma calls_of_one_count lg :
  let w := {| calls := calls_of_one; log := lg |} in
  calls_to mythmaker_agent w = 1 /\ calls_to critic_agent w = 1
  /\ List.length (calls w) = 4.
Proof. repeat split. Qed.

Lemma calls_of_two_count fb lg :
  let w := {| calls := calls_of_two fb; log := lg |} in
  calls_to mythmaker_agent w = 2 /\ calls_to critic_agent w = 2
  /\ List.length (calls w) = 6.
Proof. repeat split. Qed.

(** C1.  When a run completes normally, the number of drafts in the
    returned memory is the number of passes the loop made (the number of
    generate calls, which is also the number of evaluate calls), it is 1
    or 2, and [final_myth] is the last draft, whatever made the loop end. *)
Theorem drafts_track_iterations mem w :
  run = (Returned mem, w) ->
  List.length (drafts mem) = calls_to mythmaker_agent w
  /\ List.length (drafts mem) = calls_to critic_agent w
  /\ (List.length (drafts mem) = 1 \/ List.length (drafts mem) = 2)
  /\ exists earlier, drafts mem = (earlier ++ [final_myth mem])%list.
Proof.
  intros Hrun.
  destruct run_cases as [(st & lg & _ & H) | (fb & lg & _ & H)];
    rewrite H in Hrun; inversion Hrun; subst mem w; clear Hrun.
  - repeat split; auto. exists []. reflexivity.
  - repeat split; auto. exists [first_draft]. reflexivity.
Qed.

(** C9.  Every run completes, makes at most two generate and two evaluate
    calls, and sends between 4 and 6 requests in all: the two of the
    gathering phase and two per pass. *)
Theorem call_budget :
  exists mem w,
    run = (Returned mem, w)
    /\ calls_to mythmaker_agent w <= 2
    /\ calls_to critic_agent w <= 2
    /\ calls_to mythmaker_agent w = calls_to critic_agent w
    /\ List.length (calls w) = 2 + calls_to mythmaker_agent w + calls_to critic_agent w
    /\ 4 <= List.length (calls w) <= 6.
Proof.
  destruct run_cases as [(st & lg & _ & H) | (fb & lg & _ & H)];
    rewrite H; eexists; eexists; (split; [reflexivity |]).
  - destruct (calls_of_one_count lg) as (-> & -> & ->). lia.
  - destruct (calls_of_two_count fb lg) as (-> & -> & ->). lia.
Qed.

(** An evaluation whose [try] block raises ends in [break], with the
    draft and the memory as they were. *)
Lemma evaluate_raised eval_result st e st' :
  try_block eval_result st = (Raised e, st') ->
  evaluate eval_result st = Break st'
  /\ current_draft st' = current_draft st
  /\ session_memory st' = session_memory st.
Proof.
  intros H.
  assert (Hev : evaluate eval_result st = Break st')
    by (unfold evaluate; rewrite H; reflexivity).
  split; [exact Hev |].
  destruct (evaluate_frame eval_result st) as [fb [Hb | Hc]];
    rewrite Hev in *; [| discriminate].
  inversion Hb; subst st'. split; reflexivity.
Qed.

(** C5.  Whenever the [try] block raises on the critic's output (the text
    does not decode, the decoded value is not an object, or the score
    does not compare with 8), the loop ends with that pass, however many
    passes were left, and returns normally on the draft of that pass.  In
    a run, a failure on the first evaluation gives a memory with the
    first draft alone, which is the final myth, after four requests. *)
Theorem parse_failure_stops_loop :
  (forall n i st w context e st',
      let gen := build_request mime_type mythmaker_agent
                   (full_prompt repr (feedback st) context) None false in
      let draft := gateway_text (client (List.length (calls w)) gen) in
      let ev := build_request mime_type critic_agent
                  ("Evaluate:" ++ LF ++ draft) None false in
      let eval_result := gateway_text (client (S (List.length (calls w))) ev) in
      try_block eval_result
        {| current_draft := draft; feedback := feedback st;
           session_memory := append_draft draft (session_memory st) |}
      = (Raised e, st') ->
      (exists w',
          for_range (S n) i (refine_step client repr mime_type context) st w
          = (Returned st', w')
          /\ calls w' = (calls w ++ [gen; ev])%list)
      /\ current_draft st' = draft
      /\ drafts (session_memory st') = (drafts (session_memory st) ++ [draft])%list)
  /\ (forall e st',
         try_block first_evaluation first_locals = (Raised e, st') ->
         exists mem w,
           run = (Returned mem, w)
           /\ drafts mem = [first_draft]
           /\ final_myth mem = first_draft
           /\ calls w = calls_of_one).
Proof.
  split.
  - intros n i st w context e st' gen draft ev eval_result H.
    apply evaluate_raised in H. destruct H as (Hev & Hd & Hm).
    cbn [current_draft session_memory] in Hd, Hm.
    split; [| split].
    + eexists. split.
      * cbn [for_range]. erewrite bind_returned by apply refine_step_run.
        cbv zeta. fold gen. fold draft. fold ev. fold eval_result.
        rewrite Hev. reflexivity.
      * reflexivity.
    + exact Hd.
    + rewrite Hm. reflexivity.
  - intros e st' H. apply evaluate_raised in H. destruct H as (Hev & _ & _).
    destruct run_cases as [(st & lg & _ & Hrun) | (fb & lg & Hc & _)].
    + rewrite Hrun. eexists. eexists. repeat split.
    + rewrite Hev in Hc. discriminate.
Qed.

(** C6.  If the critic's first output decodes to an object whose score is
    at least 8, the loop makes exactly one pass and the final myth is the
    draft of that pass. *)
Theorem accepted_after_first_pass d score :
  json_loads (clean_json first_evaluation) = Returned (PyDict d) ->
  dict_lookup "score" d = Some score ->
  ge_8 score = Returned true ->
  exists mem w,
    run = (Returned mem, w)
    /\ drafts mem = [first_draft]
    /\ final_myth mem = first_draft
    /\ calls_to mythmaker_agent w = 1
    /\ calls_to critic_agent w = 1
    /\ calls w = calls_of_one.
Proof.
  intros Hd Hs Hge.
  assert (Hev : exists st, evaluate first_evaluation first_locals = Break st).
  { rewrite evaluate_cases, Hd. cbv zeta. unfold get_or at 1. rewrite Hs, Hge.
    eexists. reflexivity. }
  destruct Hev as [st0 Hev].
  destruct run_cases as [(st & lg & _ & Hrun) | (fb & lg & Hc & _)].
  - rewrite Hrun. eexists. eexists. repeat split.
  - rewrite Hev in Hc. discriminate.
Qed.

(** C4, as the code has it.  The third request of a run is the first
    generate call, and its prompt is "Write the myth." followed by the
    context block.  When there is a fifth request, it is the second
    generate call: the first evaluation decoded to an object, and with
    [fb] the feedback taken from it (the value under "feedback", or
    "Good." when the key is absent) the prompt is "Refine this myth based
    on feedback: " followed by [fb] formatted when [fb] is true as a
    condition, and "Write the myth." again when it is not (an empty
    string, null, false, 0, an empty list or object). *)
Theorem generation_prompts mem w :
  run = (Returned mem, w) ->
  nth_error (calls w) 2
  = Some (build_request mime_type mythmaker_agent
            ("Write the myth." ++ LF ++ LF ++ "CONTEXT:" ++ LF ++ compacted)
            None false)
  /\ forall r,
      nth_error (calls w) 4 = Some r ->
      exists d,
        json_loads (clean_json first_evaluation) = Returned (PyDict d)
        /\ let fb := get_or d "feedback" (PyStr "Good.") in
           r = build_request mime_type mythmaker_agent
                 ((if truthy fb
                   then "Refine this myth based on feedback: " ++ format_field repr fb
                   else "Write the myth.")
                  ++ LF ++ LF ++ "CONTEXT:" ++ LF ++ compacted)
                 None false.
Proof.
  intros Hrun.
  destruct run_cases as [(st & lg & _ & H) | (fb & lg & Hc & H)];
    rewrite H in Hrun; inversion Hrun; subst mem w; clear Hrun.
  - split; [reflexivity |]. intros r Hr. discriminate Hr.
  - split; [reflexivity |]. intros r Hr.
    cbn in Hr. inversion Hr; subst r; clear Hr.
    rewrite evaluate_cases in Hc.
    destruct (json_loads (clean_json first_evaluation)) as [data | e];
      [| discriminate].
    destruct data; try discriminate.
    exists d. split; [reflexivity |]. cbv zeta in *.
    destruct (ge_8 (get_or d "score" (PyInt 0))) as [[|] | e]; try discriminate.
    inversion Hc as [Hfb]. rewrite Hfb. reflexivity.
Qed.

(** C2.  When the completion call of a gateway invocation raises, the
    invocation returns "Error: " followed by the message of the failure
    instead of raising, so whatever follows it runs on that string; and a
    run of the pipeline always returns a memory, after at least four
    requests, whichever of its calls fail. *)
Theorem gateway_failure_is_recovered agent prompt image_input search w e :
  let request := build_request mime_type agent prompt image_input search in
  client (List.length (calls w)) request = Raised e ->
  fst (execute_agent client mime_type agent prompt image_input search w)
  = Returned ("Error: " ++ exn_str e)
  /\ (forall (B : Type) (k : string -> M World B),
         bind (execute_agent client mime_type agent prompt image_input search) k w
         = k ("Error: " ++ exn_str e)
             {| calls := calls w ++ [request];
                log := log w ++ [(INFO, "⚡ Executing " ++ name agent ++ "...");
                                 (ERROR, "Agent " ++ name agent ++ " failed: "
                                         ++ exn_str e)] |})
  /\ exists mem w', run = (Returned mem, w') /\ 4 <= List.length (calls w').
Proof.
  intros request H.
  pose proof (execute_agent_run agent prompt image_input search w) as Hrun.
  cbv zeta in Hrun. fold request in Hrun. rewrite H in Hrun.
  cbn [gateway_text gateway_log gateway_exn] in Hrun.
  split; [| split].
  - rewrite Hrun. reflexivity.
  - intros B k. apply bind_returned. exact Hrun.
  - destruct run_cases as [(st & lg & _ & Hr) | (fb & lg & _ & Hr)];
      rewrite Hr; eexists; eexists; (split; [reflexivity |]); cbn; lia.
Qed.

(** C7, as the code has it.  When the call returns a response whose parts
    can be read (no candidate, or a first candidate that has a content),
    the gateway returns the texts of the first candidate's text-bearing
    parts, appended in order, if there is such a part, and the fallback
    text if there is none.  The fallback text coming back tells that there
    was no text-bearing part only as long as the parts do not spell that
    very text. *)
Theorem gateway_text_of_response agent prompt image_input search w response ps :
  client (List.length (calls w))
    (build_request mime_type agent prompt image_input search)
  = Returned response ->
  parts_to_read response = Returned ps ->
  let result := fst (execute_agent client mime_type agent prompt image_input search w) in
  (text_parts ps <> [] ->
   result = Returned (String.concat EmptyString (text_parts ps)))
  /\ (text_parts ps = [] -> result = Returned fallback)
  /\ (result = Returned fallback ->
      text_parts ps = [] \/ String.concat EmptyString (text_parts ps) = fallback).
Proof.
  intros Hcall Hparts result.
  assert (Hres : result
                 = Returned (match String.concat EmptyString (text_parts ps) with
                             | String _ _ => String.concat EmptyString (text_parts ps)
                             | EmptyString => fallback
                             end)).
  { unfold result. rewrite execute_agent_run. cbv zeta. cbn [fst].
    rewrite Hcall. unfold gateway_text, extract_text. rewrite Hparts.
    rewrite append_texts_concat. reflexivity. }
  rewrite Hres. clear Hres result.
  pose proof (concat_text_parts_empty ps) as Hempty.
  destruct (String.concat EmptyString (text_parts ps)) as [| c t] eqn:E.
  - specialize (Hempty eq_refl). repeat split.
    + intros Hne. contradiction.
    + intros _. now left.
  - repeat split.
    + intros Hnil. rewrite Hnil in E. discriminate.
    + intros H. right. now inversion H.
Qed.

(* ------------------------------------------------------------------ *)
(** ** Further properties of the gateway and the driver                 *)
(* ------------------------------------------------------------------ *)

(** *** Stripping and reversing *)

Lemma list_ascii_of_append (a b : string) :
  list_ascii_of_string (a ++ b)
  = (list_ascii_of_string a ++ list_ascii_of_string b)%list.
Proof. induction a as [| c a IH]; cbn; [| rewrite IH]; reflexivity. Qed.

Lemma string_of_list_app (l1 l2 : list ascii) :
  string_of_list_ascii (l1 ++ l2)
  = string_of_list_ascii l1 ++ string_of_list_ascii l2.
Proof. induction l1 as [| c l1 IH]; cbn; [| rewrite IH]; reflexivity. Qed.

Lemma reverse_append (a b : string) : reverse (a ++ b) = reverse b ++ reverse a.
Proof.
  unfold reverse. now rewrite list_ascii_of_append, rev_app_distr, string_of_list_app.
Qed.

Lemma reverse_cons (c : ascii) (s : string) :
  reverse (String c s) = reverse s ++ String c EmptyString.
Proof. exact (reverse_append (String c EmptyString) s). Qed.

Lemma reverse_involutive (s : string) : reverse (reverse s) = s.
Proof.
  unfold reverse.
  now rewrite list_ascii_of_string_of_list_ascii, rev_involutive,
    string_of_list_ascii_of_string.
Qed.

Ltac bytes_cases :=
  repeat match goal with
         | |- context [N.eqb ?x ?y] => destruct (N.eqb_spec x y)
         | |- context [N.leb ?x ?y] => destruct (N.leb_spec x y)
         end;
  cbn; try reflexivity; try lia.

Lemma space2_ascii_l a b : (a < 128)%N -> space2 a b = false.
Proof. intros H. unfold space2. bytes_cases. Qed.

Lemma space2_ascii_r a b : (b < 128)%N -> space2 a b = false.
Proof. intros H. unfold space2. bytes_cases. Qed.

Lemma space3_ascii_1 a b c : (a < 128)%N -> space3 a b c = false.
Proof. intros H. unfold space3. bytes_cases. Qed.

Lemma space3_ascii_2 a b c : (b < 128)%N -> space3 a b c = false.
Proof. intros H. unfold space3. bytes_cases. Qed.

Lemma space3_ascii_3 a b c : (c < 128)%N -> space3 a b c = false.
Proof. intros H. unfold space3. bytes_cases. Qed.

Lemma plain_spec c :
  plain c = true -> (ord c < 128)%N /\ space1 (ord c) = false.
Proof.
  unfold plain. intros H. apply andb_true_iff in H. destruct H as [H1 H2].
  apply N.ltb_lt in H1. apply negb_true_iff in H2. now split.
Qed.

(** A plain character starts no whitespace, read forwards or backwards. *)
Lemma space_width_plain c r : plain c = true -> space_width (String c r) = 0.
Proof.
  intros H. apply plain_spec in H. destruct H as [Hlt Hs].
  cbn [space_width]. rewrite Hs.
  destruct r as [| b [| d r]]; try reflexivity;
    rewrite ?space2_ascii_l, ?space3_ascii_1 by assumption; reflexivity.
Qed.

Lemma space_width_rev_plain c r : plain c = true -> space_width_rev (String c r) = 0.
Proof.
  intros H. apply plain_spec in H. destruct H as [Hlt Hs].
  cbn [space_width_rev]. rewrite Hs.
  destruct r as [| b [| d r]]; try reflexivity;
    rewrite ?space2_ascii_r, ?space3_ascii_3 by assumption; reflexivity.
Qed.

(** Read backwards, a whitespace character cannot reach over a plain
    character that ends the text. *)
Lemma space_width_rev_bound x r c :
  plain c = true ->
  space_width_rev (String x (r ++ String c EmptyString)) <= S (String.length r).
Proof.
  intros H. apply plain_spec in H. destruct H as [Hlt Hs].
  cbn [space_width_rev].
  destruct (space1 (ord x)); [lia |].
  destruct r as [| b r]; cbn [append String.length].
  - rewrite space2_ascii_l by assumption. lia.
  - destruct (space2 (ord b) (ord x)); [lia |].
    destruct r as [| d r]; cbn [append String.length].
    + rewrite space3_ascii_1 by assumption. lia.
    + destruct (space3 (ord d) (ord b) (ord x)); lia.
Qed.

Lemma drop_spaces_rev_keeps_last c :
  plain c = true ->
  forall r skip,
    skip <= String.length r ->
    exists r',
      drop_spaces space_width_rev skip (r ++ String c EmptyString)
      = r' ++ String c EmptyString.
Proof.
  intros Hc. induction r as [| x r IH]; intros skip Hskip.
  - cbn in Hskip. assert (skip = 0) by lia. subst skip.
    exists EmptyString. cbn [append drop_spaces].
    now rewrite space_width_rev_plain.
  - cbn [append drop_spaces String.length] in *.
    destruct skip as [| k]; [| apply IH; lia].
    pose proof (space_width_rev_bound x r c Hc) as Hb.
    destruct (space_width_rev (String x (r ++ String c EmptyString))) as [| k].
    + exists (String x r). reflexivity.
    + apply IH. lia.
Qed.

(** [strip] keeps a plain first character. *)
Lemma strip_keeps_head c s :
  plain c = true -> exists s', strip (String c s) = String c s'.
Proof.
  intros Hc. unfold strip, rstrip.
  rewrite reverse_cons.
  destruct (drop_spaces_rev_keeps_last c Hc (reverse s) 0 ltac:(lia)) as [r' Hr].
  rewrite Hr, reverse_append. cbn [reverse list_ascii_of_string rev app
                                    string_of_list_ascii append].
  exists (reverse r'). unfold lstrip. cbn [drop_spaces].
  now rewrite space_width_plain.
Qed.

(** The error strings of the gateway are not JSON. *)
Lemma error_string_is_not_json m :
  json_loads (clean_json ("Error: " ++ m)) = Raised JSONDecodeError.
Proof.
  unfold clean_json.
  assert (H : exists x, replace (replace ("Error: " ++ m) "```json" "") "```" ""
                        = String "E" x) by (eexists; reflexivity).
  destruct H as [x ->].
  destruct (strip_keeps_head "E" x eq_refl) as [y ->].
  reflexivity.
Qed.

Lemma gateway_text_nonempty o : gateway_text o <> EmptyString.
Proof.
  unfold gateway_text, extract_text.
  destruct o as [response | e]; [| discriminate].
  destruct (parts_to_read response) as [ps | e]; [| discriminate].
  cbv zeta. destruct (append_texts ps); discriminate.
Qed.

(** X1.  The gateway never hands back an empty string: it returns the
    text of the response when there is some, the fallback text when there
    is none, and an error string when something raised. *)
Theorem gateway_never_empty agent prompt image_input search w :
  exists t,
    fst (execute_agent client mime_type agent prompt image_input search w)
    = Returned t
    /\ t <> EmptyString.
Proof.
  rewrite execute_agent_run. cbv zeta. cbn [fst].
  eexists. split; [reflexivity | apply gateway_text_nonempty].
Qed.

(** X2.  After a run no field of the session memory is left at its
    initial value: visuals, lore and final myth are non-empty strings and
    there is at least one draft, none of them empty. *)
Theorem memory_fully_populated :
  exists mem w,
    run = (Returned mem, w)
    /\ visuals mem <> EmptyString
    /\ lore mem <> EmptyString
    /\ drafts mem <> []
    /\ Forall (fun d => d <> EmptyString) (drafts mem)
    /\ final_myth mem <> EmptyString.
Proof.
  destruct run_cases as [(st & lg & _ & H) | (fb & lg & _ & H)];
    rewrite H; eexists; eexists; (split; [reflexivity |]);
    cbn [memory_after_one memory_after_two set_final_myth append_draft
         gathered_memory set_lore set_visuals new_session_memory
         visuals lore drafts final_myth app];
    repeat split; try discriminate;
    repeat constructor; apply gateway_text_nonempty.
Qed.


(** *** Runs of one pass and of two *)

Lemma run_when_break st :
  evaluate first_evaluation first_locals = Break st ->
  exists w, run = (Returned memory_after_one, w) /\ calls w = calls_of_one.
Proof.
  intros Hev.
  destruct run_cases as [(st' & lg & _ & H) | (fb & lg & Hc & _)].
  - rewrite H. eexists. split; reflexivity.
  - rewrite Hev in Hc. discriminate.
Qed.

Lemma run_when_continue st :
  evaluate first_evaluation first_locals = Continue st ->
  exists w,
    run = (Returned (memory_after_two (feedback st)), w)
    /\ calls w = calls_of_two (feedback st).
Proof.
  intros Hev.
  destruct run_cases as [(st' & lg & Hb & _) | (fb & lg & Hc & H)].
  - rewrite Hev in Hb. discriminate.
  - rewrite Hev in Hc. inversion Hc; subst st. cbn [with_feedback feedback].
    rewrite H. eexists. split; reflexivity.
Qed.

Lemma evaluate_low_score d st :
  json_loads (clean_json first_evaluation) = Returned (PyDict d) ->
  ge_8 (get_or d "score" (PyInt 0)) = Returned false ->
  evaluate first_evaluation st
  = Continue (with_feedback (get_or d "feedback" (PyStr "Good.")) st).
Proof. intros Hd Hs. rewrite evaluate_cases, Hd. cbv zeta. now rewrite Hs. Qed.

(** X4.  If the critic's first output decodes to an object whose score
    compares below 8 (an absent score counts as 0), the loop makes exactly
    two passes whatever the second evaluation says: the memory holds both
    drafts in order and the final myth is the second one. *)
Theorem low_score_runs_two_passes d :
  json_loads (clean_json first_evaluation) = Returned (PyDict d) ->
  ge_8 (get_or d "score" (PyInt 0)) = Returned false ->
  let fb := get_or d "feedback" (PyStr "Good.") in
  exists mem w,
    run = (Returned mem, w)
    /\ drafts mem = [first_draft; second_draft fb]
    /\ final_myth mem = second_draft fb
    /\ List.length (calls w) = 6.
Proof.
  intros Hd Hs fb.
  destruct (run_when_continue _ (evaluate_low_score d first_locals Hd Hs))
    as (w & Hrun & Hc).
  cbn [with_feedback feedback] in Hrun, Hc. fold fb in Hrun, Hc.
  exists (memory_after_two fb), w. rewrite Hc. repeat split. exact Hrun.
Qed.

(** X5.  A critic invocation whose call raises ends the loop like an
    accepted draft: the error string it returns is not JSON, so a failure
    on the first evaluation leaves one draft, which is the final myth. *)
Theorem critic_failure_stops_loop e :
  client 3 (evaluate_request first_draft) = Raised e ->
  exists mem w,
    run = (Returned mem, w)
    /\ drafts mem = [first_draft]
    /\ final_myth mem = first_draft
    /\ List.length (calls w) = 4.
Proof.
  intros Hcall.
  assert (Hev : evaluate first_evaluation first_locals = Break first_locals).
  { rewrite evaluate_cases. unfold first_evaluation. rewrite Hcall.
    cbn [gateway_text]. now rewrite error_string_is_not_json. }
  destruct (run_when_break _ Hev) as (w & Hrun & Hc).
  exists memory_after_one, w. rewrite Hc. repeat split. exact Hrun.
Qed.

(** X6.  So does a critic response without any text-bearing part: the
    fallback text is not JSON either. *)
Theorem critic_silence_stops_loop response ps :
  client 3 (evaluate_request first_draft) = Returned response ->
  parts_to_read response = Returned ps ->
  text_parts ps = [] ->
  exists mem w,
    run = (Returned mem, w)
    /\ drafts mem = [first_draft]
    /\ final_myth mem = first_draft
    /\ List.length (calls w) = 4.
Proof.
  intros Hcall Hparts Hnone.
  assert (Hev : evaluate first_evaluation first_locals = Break first_locals).
  { rewrite evaluate_cases. unfold first_evaluation. rewrite Hcall.
    unfold gateway_text, extract_text. rewrite Hparts, append_texts_concat, Hnone.
    reflexivity. }
  destruct (run_when_break _ Hev) as (w & Hrun & Hc).
  exists memory_after_one, w. rewrite Hc. repeat split. exact Hrun.
Qed.

(** X7.  A generate call that raises still produces a draft: its error
    string is appended to the drafts like any text and is what the critic
    is asked to evaluate. *)
Theorem failed_draft_is_evaluated e :
  client 2 (generate_request (PyStr "")) = Raised e ->
  exists mem w,
    run = (Returned mem, w)
    /\ hd_error (drafts mem) = Some ("Error: " ++ exn_str e)
    /\ option_map prompt_of (nth_error (calls w) 3)
       = Some (Some ("Evaluate:" ++ LF ++ "Error: " ++ exn_str e)).
Proof.
  intros Hcall.
  assert (Hd : first_draft = "Error: " ++ exn_str e)
    by (unfold first_draft; now rewrite Hcall).
  destruct run_cases as [(st & lg & _ & H) | (fb & lg & _ & H)];
    rewrite H; eexists; eexists; (split; [reflexivity |]);
    cbn [memory_after_one memory_after_two set_final_myth append_draft
         gathered_memory set_lore set_visuals new_session_memory drafts
         app hd_error calls calls_of_one calls_of_two nth_error option_map];
    rewrite Hd; split; reflexivity.
Qed.

(** X8.  The last draft is the final myth even when it is an error
    string: if the loop goes on after the first evaluation and the second
    generate call raises, the final myth is that error string, not the
    first draft. *)
Theorem last_draft_wins d e :
  json_loads (clean_json first_evaluation) = Returned (PyDict d) ->
  ge_8 (get_or d "score" (PyInt 0)) = Returned false ->
  client 4 (generate_request (get_or d "feedback" (PyStr "Good."))) = Raised e ->
  exists mem w,
    run = (Returned mem, w)
    /\ drafts mem = [first_draft; "Error: " ++ exn_str e]
    /\ final_myth mem = "Error: " ++ exn_str e.
Proof.
  intros Hd Hs Hcall.
  destruct (run_when_continue _ (evaluate_low_score d first_locals Hd Hs))
    as (w & Hrun & _).
  cbn [with_feedback feedback] in Hrun.
  eexists. exists w. split; [exact Hrun |].
  cbn [memory_after_two set_final_myth append_draft gathered_memory set_lore
       set_visuals new_session_memory drafts final_myth app].
  unfold second_draft. rewrite Hcall. split; reflexivity.
Qed.

(** X9.  A failed gathering call poisons what follows: when the vision
    call raises, its error string is stored as the visuals and is sent to
    the Bard inside the context block of the first prompt. *)
Theorem failed_vision_reaches_the_prompt e :
  client 0 vision_request = Raised e ->
  exists mem w,
    run = (Returned mem, w)
    /\ visuals mem = "Error: " ++ exn_str e
    /\ option_map prompt_of (nth_error (calls w) 2)
       = Some (Some ("Write the myth." ++ LF ++ LF ++ "CONTEXT:" ++ LF
                     ++ "LOCATION: " ++ location ++ LF
                     ++ "VISUALS: Error: " ++ exn_str e ++ LF
                     ++ "VERIFIED LORE: " ++ gathered_lore ++ LF)).
Proof.
  intros Hcall.
  assert (Hv : gathered_visuals = "Error: " ++ exn_str e)
    by (unfold gathered_visuals; now rewrite Hcall).
  destruct run_cases as [(st & lg & _ & H) | (fb & lg & _ & H)];
    rewrite H; eexists; eexists; (split; [reflexivity |]);
    cbn [memory_after_one memory_after_two set_final_myth append_draft
         gathered_memory set_lore set_visuals new_session_memory visuals
         app calls calls_of_one calls_of_two nth_error option_map];
    (split; [exact Hv |]);
    unfold generate_request, compacted; rewrite Hv; reflexivity.
Qed.

(** *** Code fences *)

Lemma replace_from_free (b : ascii) (old_tail new x t : string) :
  free_of b x = true ->
  replace_from (String b old_tail) new 0 (x ++ t)
  = x ++ replace_from (String b old_tail) new 0 t.
Proof.
  induction x as [| c x IH]; intros Hfree; [reflexivity |].
  cbn [free_of] in Hfree. apply andb_true_iff in Hfree. destruct Hfree as [Hc Hx].
  apply negb_true_iff in Hc.
  cbn [append replace_from prefix].
  destruct (ascii_dec b c) as [-> | _];
    [rewrite Ascii.eqb_refl in Hc; discriminate |].
  now rewrite (IH Hx).
Qed.

Lemma lstrip_plain c s : plain c = true -> lstrip (String c s) = String c s.
Proof. intros H. unfold lstrip. cbn [drop_spaces]. now rewrite space_width_plain. Qed.

Lemma rstrip_plain_end c s :
  plain c = true -> rstrip (s ++ String c EmptyString) = s ++ String c EmptyString.
Proof.
  intros H. unfold rstrip. rewrite reverse_append.
  cbn [reverse list_ascii_of_string rev app string_of_list_ascii append].
  cbn [drop_spaces]. rewrite space_width_rev_plain by assumption.
  rewrite reverse_cons, reverse_involutive. reflexivity.
Qed.

Lemma rstrip_line_feed s : rstrip (s ++ LF) = rstrip s.
Proof.
  unfold rstrip. rewrite reverse_append.
  cbn [LF reverse list_ascii_of_string rev app string_of_list_ascii append].
  reflexivity.
Qed.

Lemma replace_from_skip_all (o old new r : string) :
  replace_from old new (String.length o) (o ++ r) = replace_from old new 0 r.
Proof. induction o as [| c o IH]; [reflexivity | exact IH]. Qed.

(** An occurrence at the head is replaced and the scan resumes after it. *)
Lemma replace_from_head (a : ascii) (o new r : string) :
  replace_from (String a o) new 0 (String a o ++ r)
  = new ++ replace_from (String a o) new 0 r.
Proof.
  cbn [append replace_from].
  change (String a (o ++ r)) with (String a o ++ r).
  rewrite prefix_append. cbn [String.length pred].
  now rewrite replace_from_skip_all.
Qed.

Lemma replace_free (b : ascii) (old_tail new x : string) :
  free_of b x = true -> replace x (String b old_tail) new = x.
Proof.
  intros H. unfold replace.
  rewrite <- (append_empty_r x) at 1.
  rewrite replace_from_free by assumption.
  cbn [replace_from]. apply append_empty_r.
Qed.

(** X10.  A JSON object wrapped in a markdown code fence is unwrapped
    exactly, and a bare object is left as it is, as long as the text
    between the braces holds no backtick; the critic's verdict is then
    the same with and without the fence. *)
Theorem fenced_object_is_unwrapped body st :
  free_of "`" body = true ->
  let object := "{" ++ body ++ "}" in
  clean_json ("```json" ++ LF ++ object ++ LF ++ "```") = object
  /\ clean_json object = object
  /\ evaluate ("```json" ++ LF ++ object ++ LF ++ "```") st = evaluate object st.
Proof.
  intros Hfree object.
  assert (Hobj : free_of "`" object = true).
  { unfold object. rewrite (free_of_append "`" "{"), free_of_append, Hfree.
    reflexivity. }
  assert (Hline : free_of "`" (LF ++ object ++ LF) = true).
  { rewrite (free_of_append "`" LF), free_of_append, Hobj. reflexivity. }
  assert (Hstrip : strip (LF ++ object ++ LF) = object).
  { unfold strip, object.
    replace (LF ++ ("{" ++ body ++ "}") ++ LF)
      with ((LF ++ ("{" ++ body ++ "}")) ++ LF) by now rewrite !append_assoc.
    rewrite rstrip_line_feed.
    replace (LF ++ "{" ++ body ++ "}")
      with ((LF ++ "{" ++ body) ++ String "}" EmptyString)
      by now rewrite !append_assoc.
    rewrite rstrip_plain_end by reflexivity.
    rewrite !append_assoc. unfold lstrip, LF. cbn [append drop_spaces].
    change (space_width (String NL (String "{" (body ++ "}")))) with 1.
    cbn [drop_spaces]. now rewrite space_width_plain. }
  assert (Hbare : strip object = object).
  { unfold strip, object.
    replace ("{" ++ body ++ "}") with (("{" ++ body) ++ String "}" EmptyString)
      by now rewrite !append_assoc.
    rewrite rstrip_plain_end by reflexivity.
    rewrite append_assoc. now apply lstrip_plain. }
  assert (H1 : clean_json ("```json" ++ LF ++ object ++ LF ++ "```") = object).
  { unfold clean_json. rewrite <- Hstrip at 2. f_equal.
    replace (LF ++ object ++ LF ++ "```") with ((LF ++ object ++ LF) ++ "```")
      by now rewrite !append_assoc.
    unfold replace at 2. rewrite replace_from_head.
    rewrite replace_from_free by assumption.
    change (replace_from "```json" "" 0 "```") with "```".
    cbn [append]. unfold replace.
    rewrite replace_from_free by assumption.
    change (replace_from "```" "" 0 "```") with "".
    apply append_empty_r. }
  assert (H2 : clean_json object = object).
  { unfold clean_json.
    now rewrite (replace_free "`" "``json" "" object Hobj),
      (replace_free "`" "``" "" object Hobj), Hbare. }
  split; [exact H1 | split; [exact H2 |]].
  now rewrite !evaluate_cases, H1, H2.
Qed.

End Run.

(** ** A run after earlier runs *)

Section History.

Variable earlier : World.

Lemma framed_ret {A} (a : A) : framed earlier (ret a) (ret a).
Proof. intros w. reflexivity. Qed.

Lemma framed_logger lvl msg : framed earlier (logger lvl msg) (logger lvl msg).
Proof.
  intros w. unfold logger, modify, after_history. cbn [fst snd calls log].
  now rewrite app_assoc.
Qed.

Lemma framed_bind {A B} (m m' : M World A) (k k' : A -> M World B) :
  framed earlier m m' ->
  (forall a, framed earlier (k a) (k' a)) ->
  framed earlier (bind m k) (bind m' k').
Proof.
  intros Hm Hk w. unfold bind. rewrite Hm.
  destruct (m' w) as [[a | e] w1]; cbn [fst snd]; [apply Hk | reflexivity].
Qed.

Lemma framed_execute_agent client mime_type agent prompt image_input search :
  framed earlier
    (execute_agent client mime_type agent prompt image_input search)
    (execute_agent (shift (List.length (calls earlier)) client) mime_type agent
       prompt image_input search).
Proof.
  intros w. rewrite !execute_agent_run. cbv zeta.
  unfold after_history, shift. cbn [fst snd calls log].
  rewrite length_app, <- !app_assoc. reflexivity.
Qed.

Lemma framed_for_range {S} n :
  forall i (body body' : nat -> S -> M World (Flow S)) s,
    (forall i s, framed earlier (body i s) (body' i s)) ->
    framed earlier (for_range n i body s) (for_range n i body' s).
Proof.
  induction n as [| n IH]; intros i body body' s Hb; cbn [for_range].
  - apply framed_ret.
  - apply framed_bind; [apply Hb |].
    intros [s' | s']; [now apply IH | apply framed_ret].
Qed.

Lemma framed_run_pipeline client repr image_bytes mime_type location :
  framed earlier
    (run_pipeline client repr image_bytes mime_type location)
    (run_pipeline (shift (List.length (calls earlier)) client) repr image_bytes
       mime_type location).
Proof.
  unfold run_pipeline.
  apply framed_bind; [apply framed_logger | intros _].
  apply framed_bind; [apply framed_execute_agent | intros visuals].
  apply framed_bind; [apply framed_execute_agent | intros lore].
  apply framed_bind; [apply framed_logger | intros _].
  apply framed_bind; [| intros st0; apply framed_ret].
  apply framed_for_range. intros i s. unfold refine_step.
  apply framed_bind; [apply framed_execute_agent | intros draft].
  apply framed_bind; [apply framed_execute_agent | intros eval_result].
  apply framed_ret.
Qed.

End History.

(** The pipeline started in a world with a history, from the run of the
    shifted service in the initial world. *)
Lemma run_pipeline_after_history client repr image_bytes mime_type location w mem w' :
  run (shift (List.length (calls w)) client) repr image_bytes mime_type location
  = (Returned mem, w') ->
  run_pipeline client repr image_bytes mime_type location w
  = (Returned mem, {| calls := calls w ++ calls w'; log := log w ++ log w' |}).
Proof.
  intros H.
  pose proof (framed_run_pipeline w client repr image_bytes mime_type location
                initial_world) as Hf.
  unfold run in H. rewrite H in Hf. cbn [fst snd] in Hf.
  unfold after_history in Hf. cbn [calls log initial_world] in Hf.
  rewrite !app_nil_r in Hf. destruct w. exact Hf.
Qed.

(** A run returns a memory, after four to six requests. *)
Lemma run_returns_bounded client repr image_bytes mime_type location :
  exists mem w,
    run client repr image_bytes mime_type location = (Returned mem, w)
    /\ 4 <= List.length (calls w) <= 6.
Proof.
  destruct (run_cases client repr image_bytes mime_type location)
    as [(s & lg & _ & H) | (fb & lg & _ & H)];
    eexists; eexists; (split; [exact H | cbn; lia]).
Qed.

(** X19.  A run of the pipeline does not depend on what was done before
    it: started after earlier requests, it returns what a first run
    returns from a service that answers as this one does from then on,
    and it adds its requests and log lines, between 4 and 6 requests,
    behind the earlier ones, which it leaves as they are. *)
Theorem run_after_earlier_runs client repr image_bytes mime_type location w :
  let client' := shift (List.length (calls w)) client in
  exists mem w',
    run client' repr image_bytes mime_type location = (Returned mem, w')
    /\ run_pipeline client repr image_bytes mime_type location w
       = (Returned mem,
          {| calls := calls w ++ calls w'; log := log w ++ log w' |})
    /\ 4 <= List.length (calls w') <= 6.
Proof.
  intros client'.
  destruct (run_returns_bounded client' repr image_bytes mime_type location)
    as (mem & w' & H & Hlen).
  exists mem, w'. split; [exact H |]. split; [| exact Hlen].
  apply run_pipeline_after_history. exact H.
Qed.

(** The verdict of an evaluation does not depend on the loop variables it
    is given. *)
Lemma evaluate_verdict eval_result st st' :
  (exists s s', evaluate eval_result st = Break s
                /\ evaluate eval_result st' = Break s')
  \/ (exists fb, evaluate eval_result st = Continue (with_feedback fb st)
                 /\ evaluate eval_result st' = Continue (with_feedback fb st')).
Proof.
  rewrite !evaluate_cases.
  destruct (json_loads (clean_json eval_result)) as [data | e];
    [| left; eauto].
  destruct data; try solve [left; eauto].
  cbv zeta.
  destruct (ge_8 (get_or d "score" (PyInt 0))) as [[|] | e];
    [left; eauto | right; eauto | left; eauto].
Qed.

(** X11.  The second generate request does not depend on the first draft:
    when two services differ only in the draft they return first and the
    critic says the same to both, the Bard is sent the same second request.
    The draft to refine is not part of the refinement prompt. *)
Theorem second_prompt_ignores_first_draft
  client1 client2 repr image_bytes mime_type location :
  (forall n request, n <> 2 -> n <> 3 -> client1 n request = client2 n request) ->
  first_evaluation client1 repr image_bytes mime_type location
  = first_evaluation client2 repr image_bytes mime_type location ->
  nth_error (calls (snd (run client1 repr image_bytes mime_type location))) 4
  = nth_error (calls (snd (run client2 repr image_bytes mime_type location))) 4.
Proof.
  intros H He.
  assert (Hc : compacted client1 image_bytes mime_type location
               = compacted client2 image_bytes mime_type location).
  { unfold compacted, gathered_visuals, gathered_lore.
    now rewrite (H 0), (H 1) by lia. }
  destruct (evaluate_verdict
              (first_evaluation client1 repr image_bytes mime_type location)
              (first_locals client1 repr image_bytes mime_type location)
              (first_locals client2 repr image_bytes mime_type location))
    as [(s & s' & E1 & E2) | (fb & E1 & E2)]; rewrite He in E2.
  - destruct (run_when_break _ _ _ _ _ _ E1) as (w1 & R1 & C1).
    destruct (run_when_break _ _ _ _ _ _ E2) as (w2 & R2 & C2).
    rewrite R1, R2. cbn [snd]. rewrite C1, C2. reflexivity.
  - destruct (run_when_continue _ _ _ _ _ _ E1) as (w1 & R1 & C1).
    destruct (run_when_continue _ _ _ _ _ _ E2) as (w2 & R2 & C2).
    rewrite R1, R2. cbn [snd]. rewrite C1, C2.
    cbn [with_feedback feedback calls_of_two calls_of_one app nth_error].
    unfold generate_request. now rewrite Hc.
Qed.

(** C10.  Two services that answer alike except at the sixth call, which
    is the second evaluation when there is one, lead to the same returned
    memory: visuals, lore, drafts and final myth. *)
Theorem second_evaluation_is_unobserved
  client1 client2 repr image_bytes mime_type location :
  (forall n request, n <> 5 -> client1 n request = client2 n request) ->
  fst (run client1 repr image_bytes mime_type location)
  = fst (run client2 repr image_bytes mime_type location).
Proof.
  intros H.
  assert (Hv : gathered_visuals client1 image_bytes mime_type
               = gathered_visuals client2 image_bytes mime_type)
    by (unfold gathered_visuals; now rewrite H by lia).
  assert (Hl : gathered_lore client1 mime_type location
               = gathered_lore client2 mime_type location)
    by (unfold gathered_lore; now rewrite H by lia).
  assert (Hc : compacted client1 image_bytes mime_type location
               = compacted client2 image_bytes mime_type location)
    by (unfold compacted; now rewrite Hv, Hl).
  assert (Hm : gathered_memory client1 image_bytes mime_type location
               = gathered_memory client2 image_bytes mime_type location)
    by (unfold gathered_memory; now rewrite Hv, Hl).
  assert (Hg : forall fb,
             generate_request client1 repr image_bytes mime_type location fb
             = generate_request client2 repr image_bytes mime_type location fb)
    by (intros fb; unfold generate_request; now rewrite Hc).
  assert (Hd1 : first_draft client1 repr image_bytes mime_type location
                = first_draft client2 repr image_bytes mime_type location)
    by (unfold first_draft; now rewrite Hg, H by lia).
  assert (He1 : first_evaluation client1 repr image_bytes mime_type location
                = first_evaluation client2 repr image_bytes mime_type location)
    by (unfold first_evaluation; now rewrite Hd1, H by lia).
  assert (Hl1 : first_locals client1 repr image_bytes mime_type location
                = first_locals client2 repr image_bytes mime_type location)
    by (unfold first_locals; now rewrite Hd1, Hm).
  assert (Hd2 : forall fb,
             second_draft client1 repr image_bytes mime_type location fb
             = second_draft client2 repr image_bytes mime_type location fb)
    by (intros fb; unfold second_draft; now rewrite Hg, H by lia).
  assert (Hm1 : memory_after_one client1 repr image_bytes mime_type location
                = memory_after_one client2 repr image_bytes mime_type location)
    by (unfold memory_after_one; now rewrite Hd1, Hm).
  assert (Hm2 : forall fb,
             memory_after_two client1 repr image_bytes mime_type location fb
             = memory_after_two client2 repr image_bytes mime_type location fb)
    by (intros fb; unfold memory_after_two; now rewrite Hd1, Hd2, Hm).
  destruct (run_cases client1 repr image_bytes mime_type location)
    as [(st1 & lg1 & E1 & R1) | (fb1 & lg1 & E1 & R1)];
    destruct (run_cases client2 repr image_bytes mime_type location)
      as [(st2 & lg2 & E2 & R2) | (fb2 & lg2 & E2 & R2)];
    rewrite He1, Hl1 in E1; rewrite E1 in E2; try discriminate;
    rewrite R1, R2; cbn [fst].
  - now rewrite Hm1.
  - inversion E2 as [Hfb]. now rewrite Hm2.
Qed.

(** C3, as the code has it.  When the critic's output decodes to an
    object, a field that is absent takes its default (0 for the score,
    "Good." for the feedback) and a field that is present is taken as it
    is, whatever its type.  The feedback is assigned, and the loop goes on
    from these values: it stops when the score compares as at least 8 and
    also when it does not compare with a number; it continues otherwise,
    in particular when the score is absent. *)
Theorem absent_fields_default eval_result d st :
  json_loads (clean_json eval_result) = Returned (PyDict d) ->
  let score := get_or d "score" (PyInt 0) in
  let fb := get_or d "feedback" (PyStr "Good.") in
  (dict_lookup "score" d = None -> score = PyInt 0)
  /\ (dict_lookup "feedback" d = None -> fb = PyStr "Good.")
  /\ (forall v, dict_lookup "score" d = Some v -> score = v)
  /\ (forall v, dict_lookup "feedback" d = Some v -> fb = v)
  /\ evaluate eval_result st
     = match ge_8 score with
       | Returned false => Continue (with_feedback fb st)
       | _ => Break (with_feedback fb st)
       end
  /\ (dict_lookup "score" d = None ->
      evaluate eval_result st = Continue (with_feedback fb st)).
Proof.
  intros Hd score fb. unfold score, fb, get_or.
  repeat split.
  - now intros ->.
  - now intros ->.
  - now intros v ->.
  - now intros v ->.
  - rewrite evaluate_cases, Hd. reflexivity.
  - intros Hs. rewrite evaluate_cases, Hd. cbv zeta. unfold get_or. rewrite Hs.
    reflexivity.
Qed.

(** C8, as the code has it.  The context block is the three labels, each
    followed by its value and a line feed, in this order; nothing is cut
    or escaped, so its length is that of the values plus the 37 bytes of
    labels and line feeds, and each value occurs in it.  When no value
    holds a line feed, these are exactly three lines. *)
Theorem context_package_layout location visuals lore :
  let block := context_package location visuals lore in
  block = "LOCATION: " ++ location ++ LF
          ++ "VISUALS: " ++ visuals ++ LF
          ++ "VERIFIED LORE: " ++ lore ++ LF
  /\ String.length block
     = String.length location + String.length visuals + String.length lore + 37
  /\ 1 <= occurrences location block
  /\ 1 <= occurrences visuals block
  /\ 1 <= occurrences lore block
  /\ (free_of NL location = true ->
      free_of NL visuals = true ->
      free_of NL lore = true ->
      split_on NL block
      = ["LOCATION: " ++ location; "VISUALS: " ++ visuals;
         "VERIFIED LORE: " ++ lore; EmptyString]).
Proof.
  intros block. unfold block, context_package.
  split; [reflexivity |]. split; [| split; [| split; [| split]]].
  - rewrite !length_append. cbn [String.length LF]. lia.
  - apply (occurrences_inside location "LOCATION: ").
  - rewrite <- (append_assoc "LOCATION: " location), <- (append_assoc _ LF),
      <- (append_assoc _ "VISUALS: ").
    apply occurrences_inside.
  - rewrite <- (append_assoc "LOCATION: " location), <- (append_assoc _ LF),
      <- (append_assoc _ "VISUALS: "), <- (append_assoc _ visuals),
      <- (append_assoc _ LF), <- (append_assoc _ "VERIFIED LORE: ").
    apply occurrences_inside.
  - intros H1 H2 H3.
    rewrite <- (append_assoc "LOCATION: " location).
    rewrite split_on_line by (rewrite free_of_append, H1; reflexivity).
    rewrite <- (append_assoc "VISUALS: " visuals).
    rewrite split_on_line by (rewrite free_of_append, H2; reflexivity).
    rewrite <- (append_assoc "VERIFIED LORE: " lore). unfold LF.
    rewrite split_on_field by (rewrite free_of_append, H3; reflexivity).
    reflexivity.
Qed.

(* ================================================================== *)
(** * The properties on scripted runs                                   *)
(* ================================================================== *)

(** [drafts_track_iterations] on a run whose critic answers in prose: one
    draft, which is the final myth. *)
Lemma drafts_track_iterations_witness :
  exists mem w,
    run Script.prose_critic Script.no_repr "IMG" "image/png" "Tower of London"
    = (Returned mem, w)
    /\ drafts mem = ["draft one"]
    /\ List.length (drafts mem) = calls_to mythmaker_agent w
    /\ List.length (drafts mem) = calls_to critic_agent w
    /\ (List.length (drafts mem) = 1 \/ List.length (drafts mem) = 2)
    /\ exists earlier, drafts mem = (earlier ++ [final_myth mem])%list.
Proof.
  eexists. eexists. split; [vm_compute; reflexivity |]. split; [reflexivity |].
  apply (drafts_track_iterations Script.prose_critic Script.no_repr
           "IMG" "image/png" "Tower of London").
  reflexivity.
Defined.

(** [gateway_failure_is_recovered] on a service that is down. *)
Lemma gateway_failure_is_recovered_witness :
  Script.down 0
    (build_request "image/png" visionary_agent "Describe the atmosphere."
       (Some "IMG") false)
  = Raised Script.unavailable
  /\ fst (execute_agent Script.down "image/png" visionary_agent
            "Describe the atmosphere." (Some "IMG") false initial_world)
     = Returned "Error: 503 UNAVAILABLE".
Proof.
  split; [reflexivity |].
  exact (proj1 (gateway_failure_is_recovered Script.down Script.no_repr
                  "IMG" "image/png" "Tower of London" visionary_agent
                  "Describe the atmosphere." (Some "IMG") false initial_world
                  Script.unavailable eq_refl)).
Defined.

(** [absent_fields_default] on an object without a score. *)
Lemma absent_fields_default_witness :
  json_loads (clean_json Script.no_score_reply)
  = Returned (PyDict [("feedback", PyStr "darker")])
  /\ evaluate Script.no_score_reply Script.sample_locals
     = Continue (with_feedback (PyStr "darker") Script.sample_locals).
Proof.
  split; [reflexivity |].
  exact (proj2 (proj2 (proj2 (proj2 (proj2
           (absent_fields_default Script.no_score_reply
              [("feedback", PyStr "darker")] Script.sample_locals eq_refl)))))
           eq_refl).
Defined.

(** [generation_prompts] on a run of two passes: the second prompt
    carries the feedback of the first evaluation. *)
Lemma generation_prompts_witness :
  exists mem w,
    run Script.two_pass Script.no_repr "IMG" "image/png" "Tower of London"
    = (Returned mem, w)
    /\ option_map prompt_of (nth_error (calls w) 2)
       = Some (Some ("Write the myth." ++ LF ++ LF ++ "CONTEXT:" ++ LF
                     ++ context_package "Tower of London" "fog" "ghosts"))
    /\ option_map prompt_of (nth_error (calls w) 4)
       = Some (Some ("Refine this myth based on feedback: needs more dread"
                     ++ LF ++ LF ++ "CONTEXT:" ++ LF
                     ++ context_package "Tower of London" "fog" "ghosts")).
Proof.
  eexists. eexists. split; [vm_compute; reflexivity |].
  match goal with
  | |- option_map _ (nth_error (calls ?w) 2) = _ /\ _ =>
      split; [| reflexivity];
      rewrite (proj1 (generation_prompts Script.two_pass Script.no_repr
                        "IMG" "image/png" "Tower of London" _ w
                        ltac:(vm_compute; reflexivity)))
  end.
  reflexivity.
Defined.

(** [parse_failure_stops_loop] on a critic that answers in prose. *)
Lemma parse_failure_stops_loop_witness :
  try_block
    (first_evaluation Script.prose_critic Script.no_repr "IMG" "image/png"
       "Tower of London")
    (first_locals Script.prose_critic Script.no_repr "IMG" "image/png"
       "Tower of London")
  = (Raised JSONDecodeError,
     first_locals Script.prose_critic Script.no_repr "IMG" "image/png"
       "Tower of London")
  /\ exists mem w,
      run Script.prose_critic Script.no_repr "IMG" "image/png" "Tower of London"
      = (Returned mem, w)
      /\ drafts mem = ["draft one"]
      /\ final_myth mem = "draft one"
      /\ List.length (calls w) = 4.
Proof.
  split; [reflexivity |].
  destruct (proj2 (parse_failure_stops_loop Script.prose_critic Script.no_repr
                     "IMG" "image/png" "Tower of London") _ _ eq_refl)
    as (mem & w & Hrun & Hd & Hf & Hc).
  exists mem, w. repeat split; try assumption.
  rewrite Hc. reflexivity.
Defined.

(** [accepted_after_first_pass] on the reply
    [{"score": 9, "feedback": "great"}]. *)
Lemma accepted_after_first_pass_witness :
  json_loads (clean_json Script.accept_reply)
  = Returned (PyDict [("score", PyInt 9); ("feedback", PyStr "great")])
  /\ exists mem w,
      run Script.one_pass Script.no_repr "IMG" "image/png" "Tower of London"
      = (Returned mem, w)
      /\ drafts mem = ["draft one"]
      /\ final_myth mem = "draft one"
      /\ calls_to mythmaker_agent w = 1.
Proof.
  split; [reflexivity |].
  destruct (accepted_after_first_pass Script.one_pass Script.no_repr
              "IMG" "image/png" "Tower of London"
              [("score", PyInt 9); ("feedback", PyStr "great")] (PyInt 9)
              eq_refl eq_refl eq_refl)
    as (mem & w & Hrun & Hd & Hf & Hg & _).
  exists mem, w. repeat split; assumption.
Defined.

(** [gateway_text_of_response] on a response of two text parts around a
    part without text. *)
Lemma gateway_text_of_response_witness :
  parts_to_read Script.fog_and_ravens
  = Returned [ {| text := Some "fog, " |}; {| text := None |};
               {| text := Some "ravens" |} ]
  /\ fst (execute_agent (Script.scripted [Returned Script.fog_and_ravens])
            "image/png" visionary_agent "Describe the atmosphere." (Some "IMG") false
            initial_world)
     = Returned "fog, ravens".
Proof.
  split; [reflexivity |].
  refine (proj1 (gateway_text_of_response
                   (Script.scripted [Returned Script.fog_and_ravens])
                   "image/png" visionary_agent
                   "Describe the atmosphere." (Some "IMG") false initial_world
                   Script.fog_and_ravens
                   [ {| text := Some "fog, " |}; {| text := None |};
                     {| text := Some "ravens" |} ] eq_refl eq_refl) _).
  discriminate.
Defined.

(** [second_evaluation_is_unobserved] on two scripts that differ in the
    second evaluation only: accepted in one, unreadable in the other. *)
Lemma second_evaluation_is_unobserved_witness :
  Script.two_pass 5 (evaluate_request "image/png" "draft two")
  <> Script.two_pass' 5 (evaluate_request "image/png" "draft two")
  /\ fst (run Script.two_pass Script.no_repr "IMG" "image/png" "Tower of London")
     = fst (run Script.two_pass' Script.no_repr "IMG" "image/png" "Tower of London").
Proof.
  split; [discriminate |].
  apply second_evaluation_is_unobserved.
  intros n request Hn. unfold Script.two_pass, Script.two_pass', Script.scripted.
  do 6 (destruct n as [| n]; [try reflexivity; contradiction |]).
  reflexivity.
Defined.

(** [context_package_layout] on values without line feeds: three lines. *)
Lemma context_package_layout_witness :
  split_on NL (context_package "Tower of London" "fog" "ghosts")
  = ["LOCATION: Tower of London"; "VISUALS: fog"; "VERIFIED LORE: ghosts";
     EmptyString].
Proof.
  exact (proj2 (proj2 (proj2 (proj2 (proj2
           (context_package_layout "Tower of London" "fog" "ghosts")))))
           eq_refl eq_refl eq_refl).
Defined.

(* ================================================================== *)
(** * Where the specification says more than the code does              *)
(* ================================================================== *)

(** C3 as stated fails on [{"score": "high", "feedback": "needs more
    dread"}]: the text decodes to an object whose score is invalid; with
    the score defaulted to 0 the loop would continue, but the comparison
    raises and the loop stops after one draft. *)
Lemma invalid_score_is_not_defaulted :
  json_loads (clean_json Script.invalid_score_reply)
  = Returned (PyDict [("score", PyStr "high");
                      ("feedback", PyStr "needs more dread")])
  /\ Spec.evaluate [("score", PyStr "high"); ("feedback", PyStr "needs more dread")]
       Script.sample_locals
     = Continue (with_feedback (PyStr "needs more dread") Script.sample_locals)
  /\ evaluate Script.invalid_score_reply Script.sample_locals
     = Break (with_feedback (PyStr "needs more dread") Script.sample_locals)
  /\ fst (run Script.invalid_score_critic Script.no_repr "IMG" "image/png"
            "Tower of London")
     = Returned {| visuals := "fog"; lore := "ghosts";
                   drafts := ["draft one"]; final_myth := "draft one" |}.
Proof. repeat split. Qed.

(** C4 as stated fails on [{"score": 3, "feedback": ""}]: there is a
    second pass, and its prompt is "Write the myth." again, not the
    refinement prompt. *)
Lemma empty_feedback_repeats_first_prompt :
  exists w,
    snd (run Script.empty_feedback_critic Script.no_repr "IMG" "image/png"
           "Tower of London") = w
    /\ List.length (calls w) = 6
    /\ option_map prompt_of (nth_error (calls w) 4)
       = Some (Some ("Write the myth." ++ LF ++ LF ++ "CONTEXT:" ++ LF
                     ++ context_package "Tower of London" "fog" "ghosts"))
    /\ option_map prompt_of (nth_error (calls w) 4)
       <> Some (Some ("Refine this myth based on feedback: "
                      ++ LF ++ LF ++ "CONTEXT:" ++ LF
                      ++ context_package "Tower of London" "fog" "ghosts")).
Proof.
  eexists. split; [reflexivity |]. split; [reflexivity |].
  split; [reflexivity | discriminate].
Qed.

(** C7 as stated fails on a response whose only part spells the fallback
    text: the fallback text is returned although a text part exists. *)
Lemma fallback_text_with_a_text_part :
  parts_to_read Script.echo_fallback = Returned [ {| text := Some fallback |} ]
  /\ text_parts [ {| text := Some fallback |} ] = [fallback]
  /\ fst (execute_agent (Script.scripted [Returned Script.echo_fallback])
            "image/png" mythmaker_agent "Write the myth." None false initial_world)
     = Returned fallback.
Proof. repeat split. Qed.

(** C8 as stated fails when the lore quotes the location: the location
    then occurs twice in the context block. *)
Lemma location_occurs_twice :
  occurrences "Tower of London"
    (context_package "Tower of London" "fog" "The Tower of London is haunted.")
  = 2.
Proof. reflexivity. Qed.

(** ** No fence marker survives the normalisation *)

Lemma prefix_split (a : string) : forall s,
  prefix a s = true -> exists t, s = a ++ t.
Proof.
  induction a as [| c a IH]; intros s H; [now exists s |].
  destruct s as [| d s]; [discriminate |]. cbn [prefix] in H.
  destruct (ascii_dec c d) as [-> | _]; [| discriminate].
  destruct (IH s H) as [t ->]. now exists t.
Qed.

Lemma prefix_app_r (a : string) : forall s t,
  prefix a s = true -> prefix a (s ++ t) = true.
Proof.
  induction a as [| c a IH]; intros s t H; [now destruct (s ++ t) |].
  destruct s as [| d s]; [discriminate |]. cbn [prefix append] in *.
  destruct (ascii_dec c d); [now apply IH | discriminate].
Qed.

Lemma occurrences_suffix needle (pre s : string) :
  occurrences needle s <= occurrences needle (pre ++ s).
Proof.
  induction pre as [| c pre IH]; cbn [append occurrences]; lia.
Qed.

Lemma occurrences_prefix needle (s post : string) :
  occurrences needle s <= occurrences needle (s ++ post).
Proof.
  induction s as [| c s IH]; cbn [append].
  - cbn [occurrences]. destruct needle; [| cbn; lia].
    destruct post; cbn; lia.
  - cbn [occurrences].
    destruct (prefix needle (String c s)) eqn:E.
    + change (String c (s ++ post)) with (String c s ++ post).
      rewrite (prefix_app_r _ _ post E). lia.
    + lia.
Qed.

Lemma drop_spaces_suffix width : forall s skip,
  exists pre, s = pre ++ drop_spaces width skip s.
Proof.
  induction s as [| c s IH]; intros skip; [now exists EmptyString |].
  cbn [drop_spaces]. destruct skip as [| k].
  - destruct (width (String c s)) as [| k].
    + now exists EmptyString.
    + destruct (IH k) as [pre H]. exists (String c pre). cbn. now rewrite <- H.
  - destruct (IH k) as [pre H]. exists (String c pre). cbn. now rewrite <- H.
Qed.

(** [strip] returns a piece of its argument. *)
Lemma strip_inside s : exists pre post, s = pre ++ strip s ++ post.
Proof.
  unfold strip, lstrip, rstrip.
  destruct (drop_spaces_suffix space_width_rev (reverse s) 0) as [tail Ht].
  destruct (drop_spaces_suffix space_width
              (reverse (drop_spaces space_width_rev 0 (reverse s))) 0)
    as [pre Hp].
  exists pre, (reverse tail).
  rewrite <- append_assoc, <- Hp, <- reverse_append, <- Ht.
  now rewrite reverse_involutive.
Qed.

Lemma replace_from_pass old new c s :
  prefix old (String c s) = false ->
  replace_from old new 0 (String c s) = String c (replace_from old new 0 s).
Proof. intros H. cbn [replace_from]. now rewrite H. Qed.

Lemma prefix_empty s : prefix EmptyString s = true.
Proof. now destruct s. Qed.

Lemma prefix_cons a t c s :
  prefix (String a t) (String c s) = (Ascii.eqb a c && prefix t s)%bool.
Proof.
  cbn [prefix]. destruct (ascii_dec a c) as [-> | Hne].
  - now rewrite Ascii.eqb_refl.
  - apply Ascii.eqb_neq in Hne. now rewrite Hne.
Qed.

(** Deleting the markers leaves a lone or double backtick as it finds it. *)
Lemma delete_fences_head1 s :
  prefix "`" s = false -> prefix "`" (replace_from "```" "" 0 s) = false.
Proof.
  destruct s as [| c s]; [reflexivity |]. intros H.
  rewrite prefix_cons, prefix_empty, andb_true_r in H.
  rewrite replace_from_pass by (now rewrite prefix_cons, H).
  now rewrite prefix_cons, H.
Qed.

Lemma delete_fences_head2 s :
  prefix "``" s = false -> prefix "``" (replace_from "```" "" 0 s) = false.
Proof.
  destruct s as [| c s]; [reflexivity |]. intros H.
  rewrite prefix_cons in H.
  assert (Hp : prefix "```" (String c s) = false).
  { rewrite prefix_cons. destruct (Ascii.eqb "`" c); [| reflexivity].
    cbn [andb] in *. destruct s as [| d s]; [reflexivity |].
    rewrite prefix_cons in *. destruct (Ascii.eqb "`" d); [| reflexivity].
    cbn [andb] in *. now rewrite prefix_empty in H. }
  rewrite replace_from_pass by exact Hp.
  rewrite prefix_cons. destruct (Ascii.eqb "`" c); [| reflexivity].
  cbn [andb] in *. now apply delete_fences_head1.
Qed.

Lemma delete_fences_clean n : forall s,
  String.length s <= n -> occurrences "```" (replace_from "```" "" 0 s) = 0.
Proof.
  induction n as [| n IH]; intros s Hlen.
  - destruct s; [reflexivity | cbn in Hlen; lia].
  - destruct s as [| c s]; [reflexivity |].
    destruct (prefix "```" (String c s)) eqn:Hp.
    + destruct (prefix_split _ _ Hp) as [t Ht]. rewrite Ht.
      rewrite replace_from_head. cbn [append]. apply IH.
      rewrite Ht in Hlen. rewrite length_append in Hlen. cbn in Hlen. lia.
    + rewrite replace_from_pass by exact Hp.
      cbn [occurrences]. cbn [String.length] in Hlen.
      rewrite (IH s) by lia.
      replace (prefix "```" (String c (replace_from "```" "" 0 s))) with false;
        [reflexivity |].
      symmetry. rewrite prefix_cons in Hp |- *.
      destruct (Ascii.eqb "`" c); [| reflexivity].
      cbn [andb] in *. now apply delete_fences_head2.
Qed.

(** X18.  What the decoder is given holds no fence marker at all: every
    run of three backticks is deleted wherever it stands, also inside the
    strings of the JSON text, and deleting one cannot bring another
    together. *)
Theorem clean_json_has_no_fence eval_result :
  occurrences "```" (clean_json eval_result) = 0.
Proof.
  unfold clean_json.
  set (r := replace (replace eval_result "```json" "") "```" "").
  assert (Hr : occurrences "```" r = 0)
    by (unfold r, replace at 1; now apply (delete_fences_clean _ _ (Nat.le_refl _))).
  destruct (strip_inside r) as (pre & post & H).
  pose proof (occurrences_suffix "```" pre (strip r ++ post)) as H1.
  pose proof (occurrences_prefix "```" (strip r) post) as H2.
  rewrite <- H in H1. lia.
Qed.

(* ================================================================== *)
(** * The script around the pipeline                                    *)
(* ================================================================== *)

Section ScriptFacts.

Variable client : Client.
Variable repr : PyVal -> string.
Variable Image_open : st.UploadedFile -> Outcome st.PILImage.

Lemma for_each_lines (l : list (nat * string)) app :
  for_each l (fun '(idx, draft) => emit (st.text (draft_line idx draft))) app
  = (Returned tt,
     {| page := page app
                ++ map (fun '(idx, draft) => st.text (draft_line idx draft)) l;
        session_state := session_state app;
        world := world app |}).
Proof.
  revert app. induction l as [| [idx draft] l IH]; intros app; cbn [for_each map].
  - unfold ret. rewrite app_nil_r. now destruct app.
  - erewrite bind_returned by reflexivity. rewrite IH. cbn [page session_state world].
    now rewrite <- app_assoc.
Qed.

(** The result panel, when the session state holds a complete result. *)
Lemma show_results_complete location_input app mem img :
  st.analysis_complete (session_state app) = Some true ->
  st.memory (session_state app) = Some mem ->
  st.current_image (session_state app) = Some img ->
  show_results location_input app
  = (Returned tt,
     {| page := page app ++ results_view location_input mem img;
        session_state := session_state app;
        world := world app |}).
Proof.
  intros Hc Hm Hi. unfold show_results. rewrite Hc, Hm, Hi.
  cbn [session_attribute].
  repeat (erewrite bind_returned by reflexivity).
  rewrite for_each_lines. cbn [page session_state world].
  unfold results_view. rewrite <- !app_assoc. reflexivity.
Qed.

Lemma show_results_nothing location_input app :
  st.analysis_complete (session_state app) <> Some true ->
  show_results location_input app = (Returned tt, app).
Proof.
  intros H. unfold show_results.
  destruct (st.analysis_complete (session_state app)) as [[|] |];
    [contradiction | reflexivity | reflexivity].
Qed.

(** The result panel changes neither the session state nor the world, and
    under [consistent] it does not raise. *)
Lemma show_results_frame location_input app :
  consistent (session_state app) ->
  exists elements,
    show_results location_input app
    = (Returned tt,
       {| page := page app ++ elements;
          session_state := session_state app;
          world := world app |}).
Proof.
  intros Hcons.
  destruct (st.analysis_complete (session_state app)) as [[|] |] eqn:Hc.
  - destruct (Hcons Hc) as [Hm Hi].
    destruct (st.memory (session_state app)) as [mem |] eqn:Em; [| contradiction].
    destruct (st.current_image (session_state app)) as [img |] eqn:Ei;
      [| contradiction].
    eexists. eapply show_results_complete; eassumption.
  - exists []. rewrite show_results_nothing by congruence.
    rewrite app_nil_r. now destruct app.
  - exists []. rewrite show_results_nothing by congruence.
    rewrite app_nil_r. now destruct app.
Qed.

(** The result panel never touches the session state or the world, even
    when it raises. *)
Lemma show_results_keeps location_input app :
  session_state (snd (show_results location_input app)) = session_state app
  /\ world (snd (show_results location_input app)) = world app.
Proof.
  unfold show_results.
  destruct (st.analysis_complete (session_state app)) as [[|] |] eqn:Hc;
    try (split; reflexivity).
  destruct (st.memory (session_state app)) as [mem |] eqn:Em;
    [| split; reflexivity].
  destruct (st.current_image (session_state app)) as [img |] eqn:Ei;
    [| split; reflexivity].
  pose proof (show_results_complete location_input app mem img Hc Em Ei) as H.
  unfold show_results in H. rewrite Hc, Em, Ei in H. rewrite H.
  split; reflexivity.
Qed.

(** What a click does once the image is open: the pipeline runs; its
    memory is stored, or its exception is shown and logged. *)
Lemma summon_agents_run file location_input app img :
  Image_open file = Returned img ->
  summon_agents client repr Image_open file location_input app
  = match run_pipeline client repr (st.getvalue file) (st.type file)
            location_input (world app) with
    | (Returned mem, w) =>
        (Returned tt,
         {| page := page app
                    ++ [st.status "🔮 Agents are communing..." true;
                        st.status_update "Myth Manifested!" "complete" false];
            session_state := {| st.memory := Some mem;
                                st.analysis_complete := Some true;
                                st.current_image := Some img |};
            world := w |})
    | (Raised e, w) =>
        (Returned tt,
         {| page := page app
                    ++ [st.status "🔮 Agents are communing..." true;
                        st.error ("Error: " ++ exn_str e)];
            session_state := session_state app;
            world := {| calls := calls w; log := log w ++ [(ERROR, "Trace:")] |} |})
    end.
Proof.
  intros Himg. unfold summon_agents. rewrite Himg.
  erewrite bind_returned by reflexivity.
  erewrite bind_returned by reflexivity.
  unfold try_except, bind at 1, in_world. cbn [world page session_state].
  destruct (run_pipeline client repr (st.getvalue file) (st.type file)
              location_input (world app)) as [[mem | e] w].
  - repeat (erewrite bind_returned by reflexivity).
    unfold emit, modify. cbn [page session_state world st.memory
                              st.analysis_complete st.current_image].
    rewrite <- app_assoc. reflexivity.
  - erewrite bind_returned by reflexivity.
    unfold logger, modify. cbn [page session_state world calls log].
    rewrite <- app_assoc. reflexivity.
Qed.

(** A run of the script with a key: the widgets, then the click if any,
    then the result panel. *)
Lemma rerun_with_key inputs app k0 key :
  GOOGLE_API_KEY inputs = Some (String k0 key) ->
  rerun client repr Image_open inputs app
  = bind (if summon inputs
          then match uploaded_file inputs, location_input inputs with
               | Some file, String _ _ =>
                   summon_agents client repr Image_open file (location_input inputs)
               | _, _ => ret tt
               end
          else ret tt)
         (fun _ => show_results (location_input inputs))
         {| page := widgets; session_state := session_state app;
            world := world app |}.
Proof.
  intros Hk. unfold rerun, script. rewrite Hk.
  repeat (erewrite bind_returned by reflexivity). reflexivity.
Qed.

(** X12.  The service and the session state are out of reach of a run of
    the script that lacks the key, was not caused by a click, has no file
    or an empty location, or whose file cannot be opened as an image: no
    request is sent, nothing is logged and the session state is as it
    was. *)
Theorem nothing_happens_without_a_valid_click inputs app :
  GOOGLE_API_KEY inputs = None
  \/ GOOGLE_API_KEY inputs = Some EmptyString
  \/ summon inputs = false
  \/ uploaded_file inputs = None
  \/ location_input inputs = EmptyString
  \/ (exists file e, uploaded_file inputs = Some file
                     /\ Image_open file = Raised e) ->
  world (snd (rerun client repr Image_open inputs app)) = world app
  /\ session_state (snd (rerun client repr Image_open inputs app))
     = session_state app.
Proof.
  intros H.
  destruct (GOOGLE_API_KEY inputs) as [[| k0 key] |] eqn:Ek;
    try (unfold rerun, script; rewrite Ek; split; reflexivity).
  rewrite (rerun_with_key inputs app k0 key Ek).
  set (app0 := {| page := widgets; session_state := session_state app;
                  world := world app |}).
  assert (Hshow : forall l,
             world (snd (show_results l app0)) = world app
             /\ session_state (snd (show_results l app0)) = session_state app).
  { intros l. destruct (show_results_keeps l app0) as [H1 H2].
    rewrite H1, H2. now split. }
  destruct (summon inputs) eqn:Es;
    [| erewrite bind_returned by reflexivity; apply Hshow].
  destruct (uploaded_file inputs) as [file |] eqn:Ef;
    [| erewrite bind_returned by reflexivity; apply Hshow].
  destruct (location_input inputs) as [| l0 loc] eqn:El;
    [erewrite bind_returned by reflexivity; apply Hshow |].
  destruct H as [H | [H | [H | [H | [H | (f & e & Hf & He)]]]]]; try discriminate.
  inversion Hf; subst f.
  unfold bind at 1, summon_agents, bind at 1, lift. rewrite He.
  split; reflexivity.
Qed.

(** X13.  A click without a file or with an empty location is ignored
    without a word: the run shows and does exactly what a run without a
    click would. *)
Theorem ignored_click_is_silent key location file app :
  file = None \/ location = EmptyString ->
  rerun client repr Image_open
    {| GOOGLE_API_KEY := key; location_input := location;
       uploaded_file := file; summon := true |} app
  = rerun client repr Image_open
      {| GOOGLE_API_KEY := key; location_input := location;
         uploaded_file := file; summon := false |} app.
Proof.
  intros [-> | ->]; unfold rerun, script; cbn [GOOGLE_API_KEY summon
    uploaded_file location_input]; [| destruct file]; reflexivity.
Qed.

(** X14.  The script keeps the session state consistent: if a complete
    result always comes with its memory and its image before a run, it
    does after it.  On such a state the script raises only when the
    uploaded file cannot be opened as an image: the result panel never
    misses a key, and a failure of the pipeline is shown, not raised. *)
Theorem script_keeps_session_consistent inputs app :
  consistent (session_state app) ->
  consistent (session_state (snd (rerun client repr Image_open inputs app)))
  /\ (fst (rerun client repr Image_open inputs app) = Returned tt
      \/ exists file e,
          summon inputs = true
          /\ uploaded_file inputs = Some file
          /\ Image_open file = Raised e
          /\ fst (rerun client repr Image_open inputs app) = Raised e).
Proof.
  intros Hcons.
  destruct (GOOGLE_API_KEY inputs) as [[| k0 key] |] eqn:Ek;
    try (unfold rerun, script; rewrite Ek; split; [exact Hcons | left; reflexivity]).
  rewrite (rerun_with_key inputs app k0 key Ek).
  set (app0 := {| page := widgets; session_state := session_state app;
                  world := world app |}).
  assert (Hshow : forall l a,
             consistent (session_state a) ->
             consistent (session_state (snd (show_results l a)))
             /\ fst (show_results l a) = Returned tt).
  { intros l a Ha.
    destruct (show_results_frame l a Ha) as [els ->].
    split; [exact Ha | reflexivity]. }
  assert (Hskip : forall l (P : Prop),
             consistent (session_state (snd (show_results l app0)))
             /\ (fst (show_results l app0) = Returned tt \/ P)).
  { intros l P. destruct (Hshow l app0 Hcons) as [H1 H2].
    split; [exact H1 | now left]. }
  destruct (summon inputs) eqn:Es;
    [| erewrite bind_returned by reflexivity; apply Hskip].
  destruct (uploaded_file inputs) as [file |] eqn:Ef;
    [| erewrite bind_returned by reflexivity; apply Hskip].
  destruct (location_input inputs) as [| l0 loc] eqn:El;
    [erewrite bind_returned by reflexivity; apply Hskip |].
  destruct (Image_open file) as [img | e] eqn:Ei.
  - pose proof (summon_agents_run file (String l0 loc) app0 img Ei) as Hs.
    destruct (run_pipeline client repr (st.getvalue file) (st.type file)
                (String l0 loc) (world app0)) as [[mem | e] w];
      erewrite bind_returned by exact Hs.
    + match goal with
      | |- context [show_results ?l ?a] => destruct (Hshow l a) as [H1 H2]
      end.
      * intros _. cbn. split; discriminate.
      * split; [exact H1 | left; exact H2].
    + match goal with
      | |- context [show_results ?l ?a] => destruct (Hshow l a) as [H1 H2]
      end.
      * exact Hcons.
      * split; [exact H1 | left; exact H2].
  - unfold bind at 1, summon_agents, bind at 1, lift. rewrite Ei.
    split; [exact Hcons |].
    right. exists file, e. repeat split; try reflexivity. exact Ei.
Qed.

(** A valid click, step by step. *)
Lemma summon_run key location file img app :
  key <> EmptyString ->
  location <> EmptyString ->
  Image_open file = Returned img ->
  exists mem w,
    run (shift (List.length (calls (world app))) client) repr
      (st.getvalue file) (st.type file) location
    = (Returned mem, w)
    /\ 4 <= List.length (calls w) <= 6
    /\ rerun client repr Image_open
         {| GOOGLE_API_KEY := Some key; location_input := location;
            uploaded_file := Some file; summon := true |} app
       = (Returned tt,
          {| page := widgets
                     ++ [st.status "🔮 Agents are communing..." true;
                         st.status_update "Myth Manifested!" "complete" false]
                     ++ results_view location mem img;
             session_state := {| st.memory := Some mem;
                                 st.analysis_complete := Some true;
                                 st.current_image := Some img |};
             world := {| calls := calls (world app) ++ calls w;
                         log := log (world app) ++ log w |} |}).
Proof.
  intros Hk Hl Himg.
  destruct key as [| k0 key]; [contradiction |].
  destruct location as [| l0 loc]; [contradiction |].
  destruct (run_returns_bounded (shift (List.length (calls (world app))) client)
              repr (st.getvalue file) (st.type file) (String l0 loc))
    as (mem & w & Hrun & Hlen).
  pose proof (run_pipeline_after_history _ _ _ _ _ _ _ _ Hrun) as Hpipe.
  exists mem, w. split; [exact Hrun |]. split; [exact Hlen |].
  erewrite rerun_with_key by reflexivity.
  cbn [summon uploaded_file location_input].
  pose proof (summon_agents_run file (String l0 loc)
                {| page := widgets; session_state := session_state app;
                   world := world app |} img Himg) as Hs.
  cbn [world] in Hs. rewrite Hpipe in Hs.
  erewrite bind_returned by exact Hs.
  rewrite (show_results_complete _ _ mem img) by reflexivity.
  cbn [page session_state world]. rewrite <- app_assoc. reflexivity.
Qed.

(** X15.  Every valid click runs the pipeline afresh, on the bytes and
    the type of the uploaded file and on the location typed, whatever
    the session already holds: between 4 and 6 requests are added to
    those sent before, the memory returned replaces the stored one
    together with the image and the completion mark, and the page shows
    the status, its update and the result panel drawn from that memory. *)
Theorem every_valid_click_runs_the_pipeline key location file img app :
  key <> EmptyString ->
  location <> EmptyString ->
  Image_open file = Returned img ->
  exists mem w,
    run (shift (List.length (calls (world app))) client) repr
      (st.getvalue file) (st.type file) location
    = (Returned mem, w)
    /\ 4 <= List.length (calls w) <= 6
    /\ rerun client repr Image_open
         {| GOOGLE_API_KEY := Some key; location_input := location;
            uploaded_file := Some file; summon := true |} app
       = (Returned tt,
          {| page := widgets
                     ++ [st.status "🔮 Agents are communing..." true;
                         st.status_update "Myth Manifested!" "complete" false]
                     ++ results_view location mem img;
             session_state := {| st.memory := Some mem;
                                 st.analysis_complete := Some true;
                                 st.current_image := Some img |};
             world := {| calls := calls (world app) ++ calls w;
                         log := log (world app) ++ log w |} |}).
Proof. exact (summon_run key location file img app). Qed.

(** X16.  The title of the result panel is built from the location field
    as it is now, not from the location the stored myth was made for:
    after a valid click for one location, a later run of the script
    without a click shows that myth under "The Myth of" the text the
    field holds then, and sends nothing to the service. *)
Theorem panel_title_follows_the_field key location location' file file' img app :
  key <> EmptyString ->
  location <> EmptyString ->
  Image_open file = Returned img ->
  let app1 :=
    snd (rerun client repr Image_open
           {| GOOGLE_API_KEY := Some key; location_input := location;
              uploaded_file := Some file; summon := true |} app) in
  exists mem w,
    run (shift (List.length (calls (world app))) client) repr
      (st.getvalue file) (st.type file) location
    = (Returned mem, w)
    /\ rerun client repr Image_open
         {| GOOGLE_API_KEY := Some key; location_input := location';
            uploaded_file := file'; summon := false |} app1
       = (Returned tt,
          {| page := widgets ++ results_view location' mem img;
             session_state := session_state app1;
             world := world app1 |}).
Proof.
  intros Hk Hl Himg app1.
  destruct (summon_run key location file img app Hk Hl Himg)
    as (mem & w & Hrun & _ & Hfirst).
  exists mem, w. split; [exact Hrun |].
  unfold app1. rewrite Hfirst. cbn [snd].
  destruct key as [| k0 key]; [contradiction |].
  erewrite rerun_with_key by reflexivity.
  cbn [summon session_state world location_input].
  erewrite bind_returned by reflexivity.
  rewrite (show_results_complete _ _ mem img) by reflexivity.
  reflexivity.
Qed.

End ScriptFacts.

(** ** The iteration log *)

Lemma slice_to_prefix n : forall s, prefix (slice_to n s) s = true.
Proof.
  intros s. revert n. induction s as [| c s IH]; intros n; [reflexivity |].
  cbn [slice_to]. destruct (continuation c).
  - cbn [prefix]. destruct (ascii_dec c c); [apply IH | contradiction].
  - destruct n as [| k]; [reflexivity |].
    cbn [prefix]. destruct (ascii_dec c c); [apply IH | contradiction].
Qed.

Lemma slice_to_length n : forall s, py_len (slice_to n s) <= n.
Proof.
  intros s. revert n. induction s as [| c s IH]; intros n; cbn [slice_to py_len];
    [lia |].
  destruct (continuation c) eqn:E.
  - cbn [py_len]. rewrite E. apply IH.
  - destruct n as [| k]; cbn [py_len]; [lia |]. rewrite E.
    specialize (IH k). lia.
Qed.

Lemma slice_to_short n : forall s, py_len s <= n -> slice_to n s = s.
Proof.
  intros s. revert n. induction s as [| c s IH]; intros n H; [reflexivity |].
  cbn [slice_to py_len] in *. destruct (continuation c).
  - now rewrite IH.
  - destruct n as [| k]; [lia |]. rewrite IH by lia. reflexivity.
Qed.

Lemma nth_error_enumerate_from {A} (l : list A) : forall k i x,
  nth_error l i = Some x ->
  nth_error (combine (seq k (List.length l)) l) i = Some (k + i, x).
Proof.
  induction l as [| y l IH]; intros k i x H; [now destruct i |].
  destruct i as [| i]; cbn in *.
  - inversion H. now rewrite Nat.add_0_r.
  - rewrite (IH (S k) i x H). f_equal. f_equal. lia.
Qed.

(** X17.  The iteration log of the result panel has one line per draft,
    numbered from 1: "Draft k: ", then a prefix of the draft of at most
    100 characters (the whole draft when it is that short), then "..."
    whether or not anything was cut. *)
Theorem iteration_log_lines location mem img i draft :
  nth_error (drafts mem) i = Some draft ->
  List.length (results_view location mem img) = 12 + List.length (drafts mem)
  /\ exists shown,
      nth_error (results_view location mem img) (12 + i)
      = Some (st.text ("Draft " ++ str_of_int (Z.of_nat i + 1) ++ ": "
                       ++ shown ++ "..."))
      /\ prefix shown draft = true
      /\ py_len shown <= 100
      /\ (py_len draft <= 100 -> shown = draft).
Proof.
  intros H. unfold results_view. split.
  - rewrite length_app, length_map. unfold enumerate.
    rewrite length_combine, length_seq, Nat.min_id. reflexivity.
  - exists (slice_to 100 draft). repeat split.
    + rewrite nth_error_app2 by (cbn; lia).
      cbn [List.length]. replace (12 + i - 12) with i by lia.
      rewrite nth_error_map. unfold enumerate.
      rewrite (nth_error_enumerate_from _ 0 i draft H). reflexivity.
    + apply slice_to_prefix.
    + apply slice_to_length.
    + apply slice_to_short.
Qed.

(* ================================================================== *)
(** * The further properties on scripted runs                           *)
(* ================================================================== *)

(** [low_score_runs_two_passes] on a score of 3, whatever the second
    evaluation (here unreadable). *)
Lemma low_score_runs_two_passes_witness :
  exists mem w,
    run Script.two_pass' Script.no_repr "IMG" "image/png" "Tower of London"
    = (Returned mem, w)
    /\ drafts mem = ["draft one"; "draft two"]
    /\ final_myth mem = "draft two"
    /\ List.length (calls w) = 6.
Proof.
  exact (low_score_runs_two_passes Script.two_pass' Script.no_repr
           "IMG" "image/png" "Tower of London"
           [("score", PyInt 3); ("feedback", PyStr "needs more dread")]
           eq_refl eq_refl).
Defined.

(** [critic_failure_stops_loop] on a critic that cannot be reached. *)
Lemma critic_failure_stops_loop_witness :
  exists mem w,
    run Cases.critic_down Script.no_repr "IMG" "image/png" "Tower of London"
    = (Returned mem, w)
    /\ drafts mem = ["draft one"]
    /\ final_myth mem = "draft one"
    /\ List.length (calls w) = 4.
Proof.
  exact (critic_failure_stops_loop Cases.critic_down Script.no_repr
           "IMG" "image/png" "Tower of London" Script.unavailable eq_refl).
Defined.

(** [critic_silence_stops_loop] on a response without candidates. *)
Lemma critic_silence_stops_loop_witness :
  exists mem w,
    run Cases.critic_silent Script.no_repr "IMG" "image/png" "Tower of London"
    = (Returned mem, w)
    /\ drafts mem = ["draft one"]
    /\ final_myth mem = "draft one"
    /\ List.length (calls w) = 4.
Proof.
  exact (critic_silence_stops_loop Cases.critic_silent Script.no_repr
           "IMG" "image/png" "Tower of London" Cases.silence []
           eq_refl eq_refl eq_refl).
Defined.

(** [failed_draft_is_evaluated] on a Bard that cannot be reached. *)
Lemma failed_draft_is_evaluated_witness :
  exists mem w,
    run Cases.bard_down Script.no_repr "IMG" "image/png" "Tower of London"
    = (Returned mem, w)
    /\ hd_error (drafts mem) = Some "Error: 503 UNAVAILABLE"
    /\ option_map prompt_of (nth_error (calls w) 3)
       = Some (Some ("Evaluate:" ++ LF ++ "Error: 503 UNAVAILABLE")).
Proof.
  exact (failed_draft_is_evaluated Cases.bard_down Script.no_repr
           "IMG" "image/png" "Tower of London" Script.unavailable eq_refl).
Defined.

(** [last_draft_wins] on a Bard that fails on the second pass. *)
Lemma last_draft_wins_witness :
  exists mem w,
    run Cases.bard_down_later Script.no_repr "IMG" "image/png" "Tower of London"
    = (Returned mem, w)
    /\ drafts mem = ["draft one"; "Error: 503 UNAVAILABLE"]
    /\ final_myth mem = "Error: 503 UNAVAILABLE".
Proof.
  exact (last_draft_wins Cases.bard_down_later Script.no_repr
           "IMG" "image/png" "Tower of London"
           [("score", PyInt 3); ("feedback", PyStr "needs more dread")]
           Script.unavailable eq_refl eq_refl eq_refl).
Defined.

(** [failed_vision_reaches_the_prompt] on a Visionary that cannot be
    reached. *)
Lemma failed_vision_reaches_the_prompt_witness :
  exists mem w,
    run Cases.vision_down Script.no_repr "IMG" "image/png" "Tower of London"
    = (Returned mem, w)
    /\ visuals mem = "Error: 503 UNAVAILABLE"
    /\ option_map prompt_of (nth_error (calls w) 2)
       = Some (Some ("Write the myth." ++ LF ++ LF ++ "CONTEXT:" ++ LF
                     ++ "LOCATION: Tower of London" ++ LF
                     ++ "VISUALS: Error: 503 UNAVAILABLE" ++ LF
                     ++ "VERIFIED LORE: ghosts" ++ LF)).
Proof.
  exact (failed_vision_reaches_the_prompt Cases.vision_down Script.no_repr
           "IMG" "image/png" "Tower of London" Script.unavailable eq_refl).
Defined.

(** [fenced_object_is_unwrapped] on [{"score": 9, "feedback": "great"}]. *)
Lemma fenced_object_is_unwrapped_witness :
  free_of "`" Cases.accept_body = true
  /\ clean_json ("```json" ++ LF ++ Script.accept_reply ++ LF ++ "```")
     = Script.accept_reply.
Proof.
  split; [reflexivity |].
  exact (proj1 (fenced_object_is_unwrapped Cases.accept_body
                  Script.sample_locals eq_refl)).
Defined.

(** [second_prompt_ignores_first_draft] on two scripts that differ in the
    first draft only. *)
Lemma second_prompt_ignores_first_draft_witness :
  first_draft Script.two_pass Script.no_repr "IMG" "image/png" "Tower of London"
  <> first_draft Cases.two_pass_other_draft Script.no_repr "IMG" "image/png"
       "Tower of London"
  /\ nth_error
       (calls (snd (run Script.two_pass Script.no_repr "IMG" "image/png"
                      "Tower of London"))) 4
     = nth_error
         (calls (snd (run Cases.two_pass_other_draft Script.no_repr "IMG"
                        "image/png" "Tower of London"))) 4.
Proof.
  split; [discriminate |].
  apply second_prompt_ignores_first_draft; [| reflexivity].
  intros n request H2 H3.
  unfold Script.two_pass, Cases.two_pass_other_draft, Script.scripted.
  do 6 (destruct n as [| n]; [try reflexivity; contradiction |]).
  reflexivity.
Defined.

(** [nothing_happens_without_a_valid_click] on a typed location that is
    not followed by a click. *)
Lemma nothing_happens_without_a_valid_click_witness :
  world (snd (rerun Script.one_pass Script.no_repr Cases.open_any
                (Cases.no_click "Tower of London" (Some Cases.raven)) new_app))
  = initial_world.
Proof.
  exact (proj1 (nothing_happens_without_a_valid_click Script.one_pass
                  Script.no_repr Cases.open_any
                  (Cases.no_click "Tower of London" (Some Cases.raven)) new_app
                  (or_intror (or_intror (or_introl eq_refl))))).
Defined.

(** [ignored_click_is_silent] on a click without a file. *)
Lemma ignored_click_is_silent_witness :
  rerun Script.one_pass Script.no_repr Cases.open_any
    (Cases.click "Tower of London" None) new_app
  = rerun Script.one_pass Script.no_repr Cases.open_any
      (Cases.no_click "Tower of London" None) new_app.
Proof.
  exact (ignored_click_is_silent Script.one_pass Script.no_repr Cases.open_any
           (Some "key") "Tower of London" None new_app (or_introl eq_refl)).
Defined.

(** [script_keeps_session_consistent] on the first click of a process,
    with a file that cannot be opened. *)
Lemma script_keeps_session_consistent_witness :
  consistent st.no_session_state
  /\ fst (rerun Script.one_pass Script.no_repr Cases.open_none
            (Cases.click "Tower of London" (Some Cases.raven)) new_app)
     = Raised Cases.unidentified
  /\ consistent
       (session_state
          (snd (rerun Script.one_pass Script.no_repr Cases.open_none
                  (Cases.click "Tower of London" (Some Cases.raven)) new_app))).
Proof.
  assert (H : consistent st.no_session_state) by (intros H; discriminate H).
  split; [exact H |]. split; [reflexivity |].
  exact (proj1 (script_keeps_session_consistent Script.one_pass Script.no_repr
                  Cases.open_none
                  (Cases.click "Tower of London" (Some Cases.raven)) new_app H)).
Defined.

(** [every_valid_click_runs_the_pipeline] on the first click of a
    process and an accepted first draft. *)
Lemma every_valid_click_runs_the_pipeline_witness :
  st.memory
    (session_state
       (snd (rerun Script.one_pass Script.no_repr Cases.open_any
               (Cases.click "Tower of London" (Some Cases.raven)) new_app)))
  = Some Cases.one_draft.
Proof.
  destruct (every_valid_click_runs_the_pipeline Script.one_pass Script.no_repr
              Cases.open_any "key" "Tower of London" Cases.raven
              {| st.fp := Cases.raven |} new_app
              ltac:(discriminate) ltac:(discriminate) eq_refl)
    as (mem & w & Hrun & _ & H).
  unfold Cases.click. rewrite H. cbn [snd session_state st.memory].
  vm_compute in Hrun. inversion Hrun. reflexivity.
Defined.

(** [panel_title_follows_the_field]: the myth of the Tower of London under
    the title of Loch Ness. *)
Lemma panel_title_follows_the_field_witness :
  let app1 :=
    snd (rerun Script.one_pass Script.no_repr Cases.open_any
           (Cases.click "Tower of London" (Some Cases.raven)) new_app) in
  let page2 :=
    page (snd (rerun Script.one_pass Script.no_repr Cases.open_any
                 (Cases.no_click "Loch Ness" None) app1)) in
  In (st.subheader "The Myth of Loch Ness") page2
  /\ In (st.markdown (myth_box "draft one") true) page2.
Proof.
  cbv zeta.
  destruct (panel_title_follows_the_field Script.one_pass Script.no_repr
              Cases.open_any "key" "Tower of London" "Loch Ness" Cases.raven None
              {| st.fp := Cases.raven |} new_app
              ltac:(discriminate) ltac:(discriminate) eq_refl)
    as (mem & w & Hrun & H).
  unfold Cases.click, Cases.no_click. rewrite H. cbn [snd page].
  vm_compute in Hrun. inversion Hrun.
  split; apply in_or_app; right; cbn; tauto.
Defined.

(** [iteration_log_lines] on a memory of one short draft. *)
Lemma iteration_log_lines_witness :
  nth_error (results_view "Tower of London" Cases.one_draft
               {| st.fp := Cases.raven |}) 12
  = Some (st.text "Draft 1: draft one...").
Proof.
  destruct (iteration_log_lines "Tower of London" Cases.one_draft
              {| st.fp := Cases.raven |} 0 "draft one" eq_refl)
    as (_ & shown & Hline & _ & _ & Hshort).
  change (12 + 0) with 12 in Hline.
  rewrite Hline, (Hshort ltac:(cbn; lia)). reflexivity.
Defined.
